(** * Software-quality box-plot report: a model of [csvs/boxplot.py]

    The script reads three metric tables (one per release tag), stacks them,
    drops exact duplicates, splits class rows from method rows and, for every
    configured class metric, prints a summary, a trend, a guideline
    assessment and writes a box plot.

    The two copies of the script in the repository differ only in how the
    figure is drawn; the model follows [csvs/csvs/boxplot.py] and keeps the
    chart block of the older copy next to it ([chart_block_basic]).

    Numbers are rationals ([Q]): no rounding and no infinities.  A missing
    cell is [NaN]; a statistic that pandas would report as NaN is [None].
    A table row is a finite map from column name to cell, read through
    [at_col], which yields [NaN] for a column the row does not carry (what
    stacking tables with different headers produces).  Row labels (the
    index) are left out: the script assigns by position, filters with masks
    computed from the frame itself, and duplicate removal and grouping do
    not look at them.  Of the column types only one distinction matters to
    the script and is kept with the table: whether a column has dtype
    object (text) or is numeric.  Arithmetic is exact: where float64 would
    round (the mean of two middle values, an interpolated quantile), the
    model holds the unrounded number.  A numeric table without groups is
    summarised by an empty table.

    What the run does to the outside world is a list of events (lines
    printed, library calls that returned) and a final status; the plotting
    libraries are a parameter that decides, call by call, whether a call
    returns or raises. *)

From Stdlib Require Import QArith Qround Lia Lqa Ascii Sorted.
From stdpp Require Import base option list gmap strings.

Local Open Scope string_scope.
Local Open Scope list_scope.

(** ** The table operations the script relies on *)

Module Pandas.

Inductive cell : Type :=
| NaN
| Num (x : Q)
| Str (s : string).

(** Equality of two cells as duplicate detection sees it: missing values
    match each other, numbers match by value. *)
Definition cell_eqb (a b : cell) : bool :=
  match a, b with
  | NaN, NaN => true
  | Num x, Num y => Qeq_bool x y
  | Str s, Str t => String.eqb s t
  | _, _ => false
  end.

Definition isna (c : cell) : bool :=
  match c with NaN => true | _ => false end.

Definition is_text (c : cell) : bool :=
  match c with Str _ => true | _ => false end.

Definition numeric (c : cell) : option Q :=
  match c with Num x => Some x | _ => None end.

(** A table: its header, its rows, and the columns of its header that have
    dtype object (text); every other column is numeric. *)
Record DataFrame : Type := mkFrame {
  columns : list string;
  rows : list (gmap string cell);
  object_columns : list string
}.

(** [pd.DataFrame()] *)
Definition empty_frame : DataFrame := mkFrame [] [] [].

(** [len(df)] *)
Definition len (df : DataFrame) : nat := length (rows df).

Definition at_col (r : gmap string cell) (c : string) : cell :=
  default NaN (r !! c).

(** [c in df.columns] *)
Definition has_column (c : string) (cols : list string) : bool :=
  existsb (String.eqb c) cols.

(** [df[c]] as the list of its values, top to bottom. *)
Definition column (c : string) (df : DataFrame) : list cell :=
  List.map (fun r => at_col r c) (rows df).

Definition add_column (c : string) (cols : list string) : list string :=
  if has_column c cols then cols else cols ++ [c].

(** The object columns once column [c] is assigned text or numbers. *)
Definition retype (c : string) (text : bool) (objs : list string)
  : list string :=
  if text then add_column c objs
  else List.filter (fun x => negb (String.eqb x c)) objs.

(** [df[c] = v] with a scalar [v]: the value is broadcast to every row. *)
Definition set_scalar (c : string) (v : cell) (df : DataFrame) : DataFrame :=
  mkFrame (add_column c (columns df)) (List.map (insert c v) (rows df))
          (retype c (is_text v) (object_columns df)).

(** [df[c] = vs] with a sequence: assigned by position; a sequence of the
    wrong length raises, which is [None] here. *)
Definition set_values (c : string) (vs : list cell) (df : DataFrame)
  : option DataFrame :=
  if Nat.eqb (length vs) (len df)
  then Some (mkFrame (add_column c (columns df))
                     (zip_with (fun r v => <[c:=v]> r) (rows df) vs)
                     (retype c (existsb is_text vs) (object_columns df)))
  else None.

(** [range(n)] as a column of numbers. *)
Definition range (n : nat) : list cell :=
  List.map (fun i => Num (inject_Z (Z.of_nat i))) (seq 0 n).

(** [pd.concat([a, b])]: rows of [a] then rows of [b]; the header is the
    header of [a] followed by the columns only [b] has; a column is object
    when it is object in [a] or in [b]. *)
Definition concat (a b : DataFrame) : DataFrame :=
  mkFrame
    (columns a ++
     List.filter (fun c => negb (has_column c (columns a))) (columns b))
    (rows a ++ rows b)
    (object_columns a ++
     List.filter (fun c => negb (has_column c (object_columns a)))
                 (object_columns b)).

(** Two rows are duplicates when they agree on every column of the header. *)
Definition row_eqb (cols : list string) (r s : gmap string cell) : bool :=
  forallb (fun c => cell_eqb (at_col r c) (at_col s c)) cols.

(** [keep='first']: a row is dropped when it duplicates a row kept
    before it. *)
Fixpoint dedup_from (cols : list string) (seen rs : list (gmap string cell))
  : list (gmap string cell) :=
  match rs with
  | [] => []
  | r :: rs' =>
      if existsb (row_eqb cols r) seen
      then dedup_from cols seen rs'
      else r :: dedup_from cols (r :: seen) rs'
  end.

(** [df.drop_duplicates()] *)
Definition drop_duplicates (df : DataFrame) : DataFrame :=
  mkFrame (columns df) (dedup_from (columns df) [] (rows df))
          (object_columns df).

(** [s.isin(vals)] for a list of strings. *)
Definition isin (vals : list string) (v : cell) : bool :=
  match v with
  | Str s => existsb (String.eqb s) vals
  | _ => false
  end.

(** [df[df[c].isin(vals)].copy()] *)
Definition select_isin (c : string) (vals : list string) (df : DataFrame)
  : DataFrame :=
  mkFrame (columns df)
          (List.filter (fun r => isin vals (at_col r c)) (rows df))
          (object_columns df).

(** [df.dropna(subset=[c])] *)
Definition dropna (c : string) (df : DataFrame) : DataFrame :=
  mkFrame (columns df)
          (List.filter (fun r => negb (isna (at_col r c))) (rows df))
          (object_columns df).

(** What [pd.read_csv] makes of a parsed table: a column is typed object
    when the table has no row or when one of its cells is text; a column of
    numbers and missing values is numeric. *)
Definition parsed_csv (cols : list string) (rs : list (gmap string cell))
  : DataFrame :=
  mkFrame cols rs
    (List.filter
       (fun c => match rs with
                 | [] => true
                 | _ => existsb (fun r => is_text (at_col r c)) rs
                 end)
       cols).

(** *** Order statistics of a list of numbers *)

Definition Qlt_bool (x y : Q) : bool := negb (Qle_bool y x).

Fixpoint insert_sorted (x : Q) (l : list Q) : list Q :=
  match l with
  | [] => [x]
  | y :: l' => if Qle_bool x y then x :: l else y :: insert_sorted x l'
  end.

Definition sort_values (l : list Q) : list Q := foldr insert_sorted [] l.

(** [s.median()]: the middle value, or the mean of the two middle values
    (the exact mean; float64 rounds it). *)
Definition median (l : list Q) : option Q :=
  let s := sort_values l in
  let n := length s in
  if Nat.eqb n 0 then None
  else if Nat.odd n then s !! (n / 2)%nat
  else a ← s !! (n / 2 - 1)%nat; b ← s !! (n / 2)%nat; Some ((a + b) / 2)%Q.

(** [s.quantile(q)] with linear interpolation between the two neighbours
    of position [(n - 1) * q]. *)
Definition quantile (q : Q) (l : list Q) : option Q :=
  let s := sort_values l in
  let h := (inject_Z (Z.of_nat (length s - 1)) * q)%Q in
  let i := Z.to_nat (Qfloor h) in
  lo ← s !! i;
  let hi := default lo (s !! S i) in
  Some (lo + (h - inject_Z (Qfloor h)) * (hi - lo))%Q.

(** [s.min()] and [s.max()] *)
Definition series_min (l : list Q) : option Q := head (sort_values l).
Definition series_max (l : list Q) : option Q := last (sort_values l).

(** *** Grouping *)

Definition key_of (c : string) (r : gmap string cell) : option string :=
  match at_col r c with Str s => Some s | _ => None end.

Fixpoint insert_key (k : string) (ks : list string) : list string :=
  match ks with
  | [] => [k]
  | k' :: ks' =>
      if String.eqb k k' then ks
      else if String.ltb k k' then k :: ks
      else k' :: insert_key k ks'
  end.

(** The distinct keys of column [c], in ascending order. *)
Definition group_keys (c : string) (rs : list (gmap string cell))
  : list string :=
  foldr (fun r ks => match key_of c r with
                     | Some k => insert_key k ks
                     | None => ks
                     end) [] rs.

(** [df.groupby(c)]: one group per distinct key, keys ascending, the rows
    of a group in table order.  Rows whose key is missing belong to no
    group; the loader gives every row a text [Tag]. *)
Definition groupby (c : string) (df : DataFrame)
  : list (string * list (gmap string cell)) :=
  List.map
    (fun k => (k, List.filter (fun r => cell_eqb (at_col r c) (Str k))
                              (rows df)))
    (group_keys c (rows df)).

(** The numbers a list of rows holds in column [metric]. *)
Definition values (metric : string) (rs : list (gmap string cell)) : list Q :=
  omap (fun r => numeric (at_col r metric)) rs.

(** *** Monotonicity of a series; [None] is NaN *)

Fixpoint non_decreasing_from (prev : option Q) (l : list (option Q)) : bool :=
  match l with
  | [] => true
  | cur :: l' =>
      match prev, cur with
      | Some p, Some c => Qle_bool p c && non_decreasing_from cur l'
      | _, _ => false
      end
  end.

Fixpoint non_increasing_from (prev : option Q) (l : list (option Q)) : bool :=
  match l with
  | [] => true
  | cur :: l' =>
      match prev, cur with
      | Some p, Some c => Qle_bool c p && non_increasing_from cur l'
      | _, _ => false
      end
  end.

Definition is_monotonic_increasing (s : list (option Q)) : bool :=
  match s with
  | [] => true
  | [x] => bool_decide (is_Some x)
  | x :: s' => non_decreasing_from x s'
  end.

Definition is_monotonic_decreasing (s : list (option Q)) : bool :=
  match s with
  | [] => true
  | [x] => bool_decide (is_Some x)
  | x :: s' => non_increasing_from x s'
  end.

End Pandas.

Import Pandas.

(** ** Python built-ins on numbers that may be NaN *)

Module Py.

(** [v > w] and [v < w]: false as soon as one side is NaN. *)
Definition gt (v w : option Q) : bool :=
  match v, w with Some x, Some y => Qlt_bool y x | _, _ => false end.

Definition lt (v w : option Q) : bool :=
  match v, w with Some x, Some y => Qlt_bool x y | _, _ => false end.

(** [max(a, b)] keeps [a] unless [b > a]; [min(a, b)] keeps [a] unless
    [b < a]. *)
Definition max (a b : option Q) : option Q := if gt b a then b else a.
Definition min (a b : option Q) : option Q := if lt b a then b else a.

Definition sub (a b : option Q) : option Q :=
  x ← a; y ← b; Some (x - y)%Q.

Definition add (a b : option Q) : option Q :=
  x ← a; y ← b; Some (x + y)%Q.

Definition mul (k : Q) (a : option Q) : option Q :=
  x ← a; Some (k * x)%Q.

(** [int(v)]: truncation towards zero; raises on NaN ([None]). *)
Definition int (v : option Q) : option Z :=
  x ← v; Some (Z.quot (Qnum x) (Z.pos (Qden x))).

(** [range(0, n)] *)
Definition range0 (n : Z) : list Z :=
  List.map Z.of_nat (seq 0 (Z.to_nat n)).

(** [f"{s:<w}"]: [s] padded with spaces on the right up to width [w]. *)
Definition ljust (w : nat) (s : string) : string :=
  s +:+ String.concat "" (repeat " " (w - String.length s)).

Definition nl : string := String (ascii_of_nat 10) "".

End Py.

(** ** Loading and combining the three files *)

(** The [files] dictionary, in insertion order: tag, then file name. *)
Definition files : list (string * string) :=
  [ ("r5.11.4", "r5.11.4-filtered.csv");
    ("r5.12.0", "r5.12.0-filtered.csv");
    ("r5.12.1", "r5.12.1-filtered.csv") ].

Section Loader.

(** What [pd.read_csv] finds on disk: [None] when the file is missing or
    does not parse (the call raises and the run stops). *)
Variable read_csv : string -> option DataFrame.

(** One iteration of the loading loop. *)
Definition load_one (all_data : DataFrame) (tag file : string)
  : option DataFrame :=
  df ← read_csv file;
  let df := set_scalar "Tag" (Str tag) df in
  df ← set_values "unique_id" (range (len df)) df;
  Some (concat all_data df).

Fixpoint load_loop (all_data : DataFrame) (fs : list (string * string))
  : option DataFrame :=
  match fs with
  | [] => Some all_data
  | (tag, file) :: fs' =>
      all_data' ← load_one all_data tag file;
      load_loop all_data' fs'
  end.

(** [all_data] after the loop, before duplicates are removed. *)
Definition combined : option DataFrame := load_loop empty_frame files.

(** [all_data] as the rest of the script sees it. *)
Definition all_data : option DataFrame := drop_duplicates <$> combined.

End Loader.

(** ** Splitting class rows from method rows *)

Definition class_kinds : list string := ["Private Class"; "Public Class"].

Definition method_kinds : list string :=
  ["Private Method"; "Public Method"; "Protected Method"].

Definition class_data (all_data : DataFrame) : DataFrame :=
  select_isin "Kind" class_kinds all_data.

Definition method_data (all_data : DataFrame) : DataFrame :=
  select_isin "Kind" method_kinds all_data.

(** ** Part A: the metric catalogue *)

Definition quality_mapping : list (string * string) :=
  [ ("SumCyclomatic", "Total cyclomatic complexity (Sum CC)");
    ("AvgEssential", "Average essential complexity (Avg. EC)");
    ("MaxInheritanceTree", "Depth of inheritance tree (DIT)");
    ("PercentLackOfCohesion", "Lack of cohesion (LCOM)");
    ("CountClassDerived", "Number of children (NOC)");
    ("CountClassCoupled", "Coupling between objects (CBO)");
    ("CountDeclMethod", "Weighted methods per class (WMC)");
    ("CountLineCode", "Source lines of code (SLOC)") ].

(** [quality_mapping.get(metric, metric)] *)
Definition quality_get (metric : string) : string :=
  match List.find (fun kv => String.eqb metric kv.1) quality_mapping with
  | Some kv => kv.2
  | None => metric
  end.

(** ** Part B: the class-level analysis *)

Definition class_metrics : list string :=
  [ "SumCyclomatic";
    "MaxInheritanceTree";
    "PercentLackOfCohesion";
    "CountClassDerived";
    "CountClassCoupled";
    "CountDeclMethod";
    "CountLineCode" ].

(** The five columns of the printed summary, in printed order. *)
Record summary : Type := mkSummary {
  s_median : option Q;
  s_q25 : option Q;
  s_q75 : option Q;
  s_min : option Q;
  s_max : option Q
}.

Definition describe (vs : list Q) : summary :=
  mkSummary (quantile (1#2) vs) (quantile (1#4) vs) (quantile (3#4) vs)
            (series_min vs) (series_max vs).

(** B.ii: the trend of the per-tag medians. *)
Definition trend (medians : list (option Q)) : string :=
  if is_monotonic_increasing medians then "increasing"
  else if is_monotonic_decreasing medians then "decreasing"
  else "stable".

(** B.iii: the three guideline tables. *)
Definition dit_assessment (value : option Q) : string :=
  if Py.gt value (Some 6%Q) then "Too high (>6)"
  else if Py.lt value (Some 2%Q) then "Too low (<2)"
  else "Optimal (2-6)".

Definition lcom_assessment (value : option Q) : string :=
  if Py.gt value (Some 80%Q) then "Poor (>80%)"
  else if Py.gt value (Some 50%Q) then "Moderate (50-80%)"
  else "Good (<50%)".

Definition cc_assessment (value : option Q) : string :=
  if Py.gt value (Some 50%Q) then "High (>50)"
  else if Py.gt value (Some 20%Q) then "Moderate (20-50)"
  else "Low (<20)".

(** *** What the run prints and draws *)

Record boxplot_args : Type := mkBoxplot {
  bx_x : string;
  bx_y : string;
  bx_data : DataFrame;
  bx_notch : bool;
  bx_showfliers : option bool;
  bx_width : option Q;
  bx_palette : option string
}.

(** The calls into the plotting libraries; an argument the script leaves to
    its default is [None]. *)
Inductive plot_call : Type :=
| Figure (width height : Z)
| Boxplot (args : boxplot_args)
| Title (text : string) (pad : option Z)
| XLabel (text : string) (labelpad : Z)
| YLabel (text : string) (labelpad : Z)
| YTicks (ticks : list Z)
| YLim (bottom top : option Q)
| Grid (axis : string) (alpha : Q)
| TightLayout
| SaveFig (path : string) (dpi : option Z) (bbox_inches : string)
| Close.

Inductive event : Type :=
| Print (line : string)
| PrintStats (table : list (string * summary))
| PrintAssessment (tag : string) (value : option Q) (unit_ label : string)
| MakeDirs (path : string)
| Draw (call : plot_call).

(** How a piece of the script ends: it runs to its end, or an exception
    nobody catches stops the whole run. *)
Inductive status : Type :=
| Completed
| Uncaught (exn : string).

Definition and_then (a b : list event * status) : list event * status :=
  match a.2 with
  | Completed => (a.1 ++ b.1, b.2)
  | Uncaught e => (a.1, Uncaught e)
  end.

(** [for metric in metrics: body] *)
Fixpoint for_each (body : string -> list event * status) (metrics : list string)
  : list event * status :=
  match metrics with
  | [] => ([], Completed)
  | metric :: rest => and_then (body metric) (for_each body rest)
  end.

(** A statement of a guarded block: a library call, or a Python error
    raised by the script's own arithmetic. *)
Inductive instr : Type :=
| Call (c : plot_call)
| Raise (msg : string).

(** B.iii as printed lines. *)
Definition assessment_lines (metric : string)
    (medians : list (string * option Q)) : list event :=
  if String.eqb metric "MaxInheritanceTree" then
    Print (Py.nl +:+ "DIT Assessment:") ::
    List.map (fun tv => PrintAssessment tv.1 tv.2 "" (dit_assessment tv.2))
             medians
  else if String.eqb metric "PercentLackOfCohesion" then
    Print (Py.nl +:+ "LCOM Assessment:") ::
    List.map (fun tv => PrintAssessment tv.1 tv.2 "%" (lcom_assessment tv.2))
             medians
  else if String.eqb metric "SumCyclomatic" then
    Print (Py.nl +:+ "Cyclomatic Complexity Assessment:") ::
    List.map (fun tv => PrintAssessment tv.1 tv.2 "" (cc_assessment tv.2))
             medians
  else [].

(** *** The chart block (the body of [try]) *)

(** The flag the script computes for the notch... *)
Definition use_notch (metric : string) : bool :=
  if has_column metric
       ["CountClassDerived"; "MaxInheritanceTree"; "CountClassCoupled"]
  then false
  else true.

(** ... and the arguments it passes to [sns.boxplot]: [notch=True] is
    written out in the call, [use_notch] is not read. *)
Definition boxplot_call (metric : string) (clean_data : DataFrame)
  : boxplot_args :=
  let use_notch := use_notch metric in
  mkBoxplot "Tag" metric clean_data true (Some true) (Some (1#2)%Q)
            (Some "Set2").

Definition axis_calls (metric : string) (vs : list Q) : list instr :=
  let q1 := quantile (1#4) vs in
  let q3 := quantile (3#4) vs in
  let iqr := Py.sub q3 q1 in
  let upper_threshold := Py.add q3 (Py.mul (3#2) iqr) in
  let lower_threshold := Py.sub q1 (Py.mul (3#2) iqr) in
  if has_column metric ["CountClassDerived"; "MaxInheritanceTree"] then
    match Py.int (series_max vs) with
    | None => [Raise "cannot convert float NaN to integer"]
    | Some max_val =>
        [ Call (YTicks (Py.range0 (max_val + 1)));
          Call (YLim (Some (-(1#2))%Q)
                     (Some (inject_Z max_val + (1#2))%Q)) ]
    end
  else
    let y_min := Py.max (series_min vs) (Py.sub lower_threshold iqr) in
    let y_max := Py.min (series_max vs) (Py.add upper_threshold iqr) in
    [ Call (YLim y_min y_max) ].

Definition chart_block (metric : string) (clean_data : DataFrame)
  : list instr :=
  [ Call (Boxplot (boxplot_call metric clean_data));
    Call (Title ("Distribution of " +:+ quality_get metric +:+ " by Version")
                (Some 20%Z));
    Call (XLabel "Software Version" 10);
    Call (YLabel (quality_get metric) 10) ] ++
  axis_calls metric (values metric (rows clean_data)) ++
  [ Call (Grid "y" (3#10));
    Call TightLayout;
    Call (SaveFig ("outputs/" +:+ metric +:+ "_boxplot.png") (Some 300%Z)
                  "tight");
    Call Close ].

(** The same block in the older copy of the script. *)
Definition chart_block_basic (metric : string) (clean_data : DataFrame)
  : list instr :=
  [ Call (Boxplot (mkBoxplot "Tag" metric clean_data true None None None));
    Call (Title (metric +:+ " by Version") None);
    Call (SaveFig ("outputs/" +:+ metric +:+ "_boxplot.png") None "tight");
    Call Close ].

(** [clean_data.groupby('Tag')[metric].describe()] and
    [clean_data.groupby('Tag')[metric].median()], one entry per tag. *)
Definition tag_stats (clean_data : DataFrame) (metric : string)
  : list (string * summary) :=
  List.map (fun g => (g.1, describe (values metric g.2)))
           (groupby "Tag" clean_data).

Definition tag_medians (clean_data : DataFrame) (metric : string)
  : list (string * option Q) :=
  List.map (fun g => (g.1, median (values metric g.2)))
           (groupby "Tag" clean_data).

Section Analyzer.

(** The plotting libraries: [backend metric call] is [Some msg] when [call],
    made while [metric] is being processed, raises an exception whose text
    is [msg], and [None] when it returns. *)
Variable backend : string -> plot_call -> option string.

(** Size of the figure opened for each metric, and the block drawn in it. *)
Variable figsize : Z * Z.
Variable block : string -> DataFrame -> list instr.

(** Runs the statements of a guarded block up to the first exception:
    the calls that returned, and the exception if there was one. *)
Fixpoint run_block (metric : string) (p : list instr)
  : list plot_call * option string :=
  match p with
  | [] => ([], None)
  | Raise msg :: _ => ([], Some msg)
  | Call c :: p' =>
      match backend metric c with
      | Some msg => ([], Some msg)
      | None => let r := run_block metric p' in (c :: r.1, r.2)
      end
  end.

(** [try: block  except Exception as e: print(...)] *)
Definition try_chart (metric : string) (clean_data : DataFrame)
  : list event :=
  let r := run_block metric (block metric clean_data) in
  List.map Draw r.1 ++
  match r.2 with
  | Some e =>
      [Print ("Could not create boxplot for " +:+ metric +:+ ": " +:+ e)]
  | None => []
  end.

(** B.i to B.iii for a metric the table has: what is printed before the
    figure is opened, and whether that part ends normally.  The summary of
    a column of dtype object has no quartile columns, and selecting them
    raises. *)
Definition report (class_data : DataFrame) (metric : string)
  : list event * status :=
  let clean_data := dropna metric class_data in
  let stats := tag_stats clean_data metric in
  let header := Print (Py.nl +:+ "--- " +:+ metric +:+ " ---") in
  if has_column metric (object_columns clean_data) then
    ([header], Uncaught "KeyError")
  else
    let medians := tag_medians clean_data metric in
    (header :: PrintStats stats ::
     Print ("Trend: " +:+ trend (List.map snd medians)) ::
     assessment_lines metric medians,
     Completed).

(** Opening the figure and the guarded chart block. *)
Definition chart (class_data : DataFrame) (metric : string)
  : list event * status :=
  let clean_data := dropna metric class_data in
  let fig := Figure figsize.1 figsize.2 in
  match backend metric fig with
  | Some e => ([], Uncaught e)
  | None => (Draw fig :: try_chart metric clean_data, Completed)
  end.

(** The body of the loop over [class_metrics]. *)
Definition analyze_metric (class_data : DataFrame) (metric : string)
  : list event * status :=
  if negb (has_column metric (columns class_data)) then
    ([Print (Py.nl +:+ "Skipping " +:+ metric +:+ " - not found in data")],
     Completed)
  else
    and_then (report class_data metric) (chart class_data metric).

Definition analyze (class_data : DataFrame) (metrics : list string)
  : list event * status :=
  for_each (analyze_metric class_data) metrics.

End Analyzer.

(** ** The whole script *)

Section Script.

Variable read_csv : string -> option DataFrame.
Variable backend : string -> plot_call -> option string.

Definition part_a : list event :=
  Print "=== PART A: Quality Characteristics ===" ::
  List.map (fun kv => Print (Py.ljust 20 kv.1 +:+ ": " +:+ kv.2))
           quality_mapping.

(** A library call made outside any [try]. *)
Definition unguarded (metric : string) (c : plot_call) : list event * status :=
  match backend metric c with
  | Some e => ([], Uncaught e)
  | None => ([Draw c], Completed)
  end.

(** [csvs/csvs/boxplot.py] *)
Definition script : list event * status :=
  match all_data read_csv with
  | None => ([MakeDirs "outputs"], Uncaught "read_csv")
  | Some all_data =>
      let class_data := class_data all_data in
      let method_data := method_data all_data in
      and_then (MakeDirs "outputs" :: part_a, Completed)
     (and_then (unguarded "" (Figure 10 6))
     (and_then ([Print (Py.nl +:+ "=== PART B: Class-Level Analysis ===")],
                Completed)
               (analyze backend (10, 6)%Z chart_block class_data
                        class_metrics)))
  end.

(** [csvs-20250410T203914Z-001/csvs/boxplot.py] *)
Definition script_basic : list event * status :=
  match all_data read_csv with
  | None => ([MakeDirs "outputs"], Uncaught "read_csv")
  | Some all_data =>
      let class_data := class_data all_data in
      let method_data := method_data all_data in
      and_then (MakeDirs "outputs" :: part_a, Completed)
     (and_then ([Print (Py.nl +:+ "=== PART B: Class-Level Analysis ===")],
                Completed)
               (analyze backend (8, 5)%Z chart_block_basic class_data
                        class_metrics))
  end.

End Script.

(** ** Sample data used in the examples below *)

Definition sample_row (kind : string) (cc lcom : Q) : gmap string cell :=
  <["Kind" := Str kind]>
    (<["SumCyclomatic" := Num cc]> (<["PercentLackOfCohesion" := Num lcom]> ∅)).

Definition sample_header : list string :=
  ["Kind"; "SumCyclomatic"; "PercentLackOfCohesion"].

Definition sample_disk (file : string) : option DataFrame :=
  if String.eqb file "r5.11.4-filtered.csv" then
    Some (parsed_csv sample_header
                  [sample_row "Public Class" 1 50;
                   sample_row "Public Class" 2 60;
                   sample_row "Public Method" 7 0])
  else if String.eqb file "r5.12.0-filtered.csv" then
    Some (parsed_csv sample_header
                  [sample_row "Public Class" 3 80;
                   sample_row "Private Class" 4 81;
                   sample_row "Public Function" 9 0])
  else if String.eqb file "r5.12.1-filtered.csv" then
    Some (parsed_csv sample_header
                  [sample_row "Public Class" 1 90;
                   sample_row "Public Class" 2 95])
  else None.

(** The class rows of the sample, as the script derives them. *)
Definition sample_class_data : DataFrame :=
  match all_data sample_disk with
  | Some ad => class_data ad
  | None => empty_frame
  end.

Definition quiet_backend (metric : string) (c : plot_call) : option string :=
  None.

(** A backend whose [savefig] fails for one metric. *)
Definition failing_backend (bad : string) (metric : string) (c : plot_call)
  : option string :=
  match c with
  | SaveFig _ _ _ => if String.eqb metric bad then Some "disk full" else None
  | _ => None
  end.

(** A backend on which [plt.figure] fails for one metric. *)
Definition no_display_backend (bad : string) (metric : string)
    (c : plot_call) : option string :=
  match c with
  | Figure _ _ => if String.eqb metric bad then Some "no display" else None
  | _ => None
  end.

(** A disk whose three files hold a header and no row. *)
Definition header_only_disk (file : string) : option DataFrame :=
  if has_column file (List.map snd files)
  then Some (parsed_csv sample_header [])
  else None.

(** The sample with one text cell, in a method row of the first file. *)
Definition text_cell_disk (file : string) : option DataFrame :=
  if String.eqb file "r5.11.4-filtered.csv" then
    Some (parsed_csv sample_header
            [sample_row "Public Class" 1 50;
             <["SumCyclomatic" := Str "n/a"]>
               (sample_row "Public Method" 7 0)])
  else sample_disk file.

(** ** Vocabulary of the statements *)

(** A sequence of medians read left to right, in the order the tags are
    processed. *)
Definition non_decreasing (ms : list Q) : Prop :=
  forall i a b, ms !! i = Some a -> ms !! S i = Some b -> (a <= b)%Q.

Definition non_increasing (ms : list Q) : Prop :=
  forall i a b, ms !! i = Some a -> ms !! S i = Some b -> (b <= a)%Q.

Definition all_equal (ms : list Q) : Prop :=
  forall i j a b, ms !! i = Some a -> ms !! j = Some b -> (a == b)%Q.

(** The rows of one file once the loader has labelled them. *)
Definition tagged (tag : string) (df : DataFrame) : list (gmap string cell) :=
  imap (fun i r => <["unique_id" := Num (inject_Z (Z.of_nat i))]>
                     (<["Tag" := Str tag]> r))
       (rows df).

(** The (Tag, unique_id) pair of a row, numbers in lowest terms. *)
Definition label (r : gmap string cell) : option string * option Q :=
  (key_of "Tag" r, Qred <$> numeric (at_col r "unique_id")).

(** A class table with one metric column [M], built from (tag, value)
    pairs. *)
Definition metric_row (tv : string * Q) : gmap string cell :=
  <["Tag" := Str tv.1]>
    (<["Kind" := Str "Public Class"]> (<["M" := Num tv.2]> ∅)).

Definition metric_table (tvs : list (string * Q)) : DataFrame :=
  mkFrame ["Kind"; "M"; "Tag"] (List.map metric_row tvs) ["Kind"; "Tag"].

(** A loaded row and the row of the file it comes from agree outside the
    two columns the loader writes. *)
Definition same_file_cells (r r0 : gmap string cell) : Prop :=
  forall col, col <> "Tag" -> col <> "unique_id" -> at_col r col = at_col r0 col.

(** A disk on which the third file is missing. *)
Definition broken_disk (file : string) : option DataFrame :=
  if String.eqb file "r5.12.1-filtered.csv" then None else sample_disk file.

(** Two possibly-NaN numbers are the same number. *)
Definition same_number (a b : option Q) : Prop :=
  match a, b with
  | Some x, Some y => (x == y)%Q
  | None, None => True
  | _, _ => False
  end.

(** Keys in strictly ascending order. *)
Definition ascending (ks : list string) : Prop :=
  StronglySorted (fun a b => String.ltb a b = true) ks.

(** The tags of the [files] dictionary, in its order. *)
Definition release_tags : list string := List.map fst files.

(** * Properties *)

(** ** Duplicate removal *)

Lemma dedup_from_idem cols seen rs :
  dedup_from cols seen (dedup_from cols seen rs) = dedup_from cols seen rs.
Proof.
  revert seen; induction rs as [|r rs IH]; intros seen; simpl; [done|].
  destruct (existsb (row_eqb cols r) seen) eqn:Hseen; [apply IH|].
  simpl. rewrite Hseen. f_equal. apply IH.
Qed.

(** C7.  Removing exact duplicates twice gives what removing them once
    gives: [drop_duplicates] is idempotent on every table. *)
Theorem drop_duplicates_idempotent (df : DataFrame) :
  drop_duplicates (drop_duplicates df) = drop_duplicates df.
Proof.
  unfold drop_duplicates; simpl. f_equal. apply dedup_from_idem.
Qed.

(** A table in which the rows already differ pairwise on some key that
    duplicates must share is left untouched. *)
Lemma dedup_from_distinct {K : Type} (key : gmap string cell -> K) cols :
  (forall r s, row_eqb cols r s = true -> key r = key s) ->
  forall rs seen,
    NoDup (List.map key rs) ->
    (forall r, In r rs -> ~ In (key r) (List.map key seen)) ->
    dedup_from cols seen rs = rs.
Proof.
  intros Hkey rs; induction rs as [|r rs IH]; intros seen Hnd Hseen; [done|].
  simpl in *. apply NoDup_cons in Hnd as [Hr Hnd].
  destruct (existsb (row_eqb cols r) seen) eqn:Hex.
  - apply existsb_exists in Hex as (s & Hs & Heq).
    exfalso. apply (Hseen r); [by left|].
    rewrite (Hkey _ _ Heq). by apply in_map.
  - f_equal. apply IH; [done|].
    intros r' Hr' [Heq|Hin]; simpl in *.
    + apply Hr. rewrite Heq. apply list_elem_of_In. by apply in_map.
    + apply (Hseen r'); [by right|done].
Qed.

(** ** The loader *)

Lemma length_range n : length (range n) = n.
Proof. unfold range. by rewrite length_map, length_seq. Qed.

Lemma range_numeric n : existsb is_text (range n) = false.
Proof.
  unfold range. generalize 0%nat.
  induction n as [|n IH]; intros s; simpl; [done | apply IH].
Qed.

Lemma zip_with_seq {A B C : Type} (f : A -> B -> C) (g : nat -> B) l s :
  zip_with f l (List.map g (seq s (length l))) =
  imap (fun i x => f x (g (s + i)%nat)) l.
Proof.
  revert s; induction l as [|x l IH]; intros s; simpl; [done|].
  rewrite Nat.add_0_r. f_equal. rewrite IH.
  apply imap_ext; intros i y _; simpl. f_equal. f_equal. lia.
Qed.

Lemma imap_map {A B C : Type} (f : nat -> B -> C) (g : A -> B) l :
  imap f (List.map g l) = imap (fun i x => f i (g x)) l.
Proof.
  revert f; induction l as [|x l IH]; intros f; simpl; [done|].
  f_equal. apply IH.
Qed.

(** One pass of the loading loop appends the labelled rows of the file. *)
Lemma load_one_spec read_csv acc tag file d :
  read_csv file = Some d ->
  load_one read_csv acc tag file =
    Some (concat acc
            (mkFrame (add_column "unique_id" (add_column "Tag" (columns d)))
                     (tagged tag d)
                     (retype "unique_id" false
                        (retype "Tag" true (object_columns d))))).
Proof.
  intros Hd. unfold load_one. rewrite Hd; simpl.
  unfold set_values, len, set_scalar; simpl.
  rewrite length_range, Nat.eqb_refl, range_numeric; simpl.
  do 2 f_equal. f_equal. unfold range, tagged.
  rewrite zip_with_seq, imap_map. done.
Qed.

Lemma length_tagged tag d : length (tagged tag d) = len d.
Proof. unfold tagged. by rewrite length_imap. Qed.

(** What the loop leaves in [all_data] when the three files parse. *)
Lemma combined_spec read_csv d1 d2 d3 :
  read_csv "r5.11.4-filtered.csv" = Some d1 ->
  read_csv "r5.12.0-filtered.csv" = Some d2 ->
  read_csv "r5.12.1-filtered.csv" = Some d3 ->
  exists c,
    combined read_csv = Some c /\
    rows c = tagged "r5.11.4" d1 ++ tagged "r5.12.0" d2 ++ tagged "r5.12.1" d3 /\
    In "Tag" (columns c) /\ In "unique_id" (columns c).
Proof.
  intros H1 H2 H3. unfold combined, files; simpl.
  rewrite (load_one_spec _ _ _ _ _ H1); simpl.
  rewrite (load_one_spec _ _ _ _ _ H2); simpl.
  rewrite (load_one_spec _ _ _ _ _ H3); simpl.
  eexists; split; [reflexivity|]. simpl.
  split; [by rewrite <- app_assoc|].
  assert (Hadd : forall c cols, In c (add_column c cols)).
  { intros c cols. unfold add_column.
    destruct (has_column c cols) eqn:Hc.
    - apply existsb_exists in Hc as (x & Hx & ->%String.eqb_eq). done.
    - apply in_or_app. right. by left. }
  assert (Hmono : forall c c' cols, In c cols -> In c (add_column c' cols)).
  { intros c c' cols Hin. unfold add_column.
    destruct (has_column c' cols); [done|]. apply in_or_app. by left. }
  assert (Hcat : forall c (xs ys : list string),
    In c ys ->
    In c (xs ++ List.filter (fun c => negb (has_column c xs)) ys)).
  { intros c xs ys Hin. apply in_or_app.
    destruct (has_column c xs) eqn:Hc.
    - left. apply existsb_exists in Hc as (x & Hx & ->%String.eqb_eq). done.
    - right. apply filter_In. split; [done|]. by rewrite Hc. }
  split; apply Hcat; [apply Hmono|]; apply Hadd.
Qed.

Lemma at_col_tagged tag d i r :
  tagged tag d !! i = Some r ->
  at_col r "Tag" = Str tag /\
  at_col r "unique_id" = Num (inject_Z (Z.of_nat i)) /\
  exists r0,
    rows d !! i = Some r0 /\
    forall c, c <> "Tag" -> c <> "unique_id" -> at_col r c = at_col r0 c.
Proof.
  unfold tagged. rewrite list_lookup_imap.
  destruct (rows d !! i) as [r0|] eqn:Hr0; simpl; [|done].
  intros [= <-]. unfold at_col.
  rewrite lookup_insert_ne, !lookup_insert_eq by done.
  split; [done|]. split; [done|]. exists r0. split; [done|].
  intros c Hc1 Hc2. by rewrite !lookup_insert_ne.
Qed.

Lemma column_tagged tag d :
  List.map (fun r => at_col r "Tag") (tagged tag d) =
  replicate (len d) (Str tag).
Proof.
  apply list_eq; intros i.
  change (List.map ?f ?l) with (f <$> l). rewrite list_lookup_fmap.
  destruct (tagged tag d !! i) as [r|] eqn:Hr; simpl.
  - destruct (at_col_tagged _ _ _ _ Hr) as (-> & _).
    symmetry. apply lookup_replicate_2.
    apply lookup_lt_Some in Hr. by rewrite length_tagged in Hr.
  - symmetry. apply lookup_replicate_None.
    apply lookup_ge_None in Hr. by rewrite length_tagged in Hr.
Qed.

(** C8.  When the three files parse, the table built by the loading loop
    (before duplicates are removed) has as many rows as the three files
    together: its rows are the rows of the first file, then of the second,
    then of the third, each carrying the tag of its file in [Tag] (and its
    position in that file in [unique_id]). *)
Theorem combined_row_count read_csv d1 d2 d3 :
  read_csv "r5.11.4-filtered.csv" = Some d1 ->
  read_csv "r5.12.0-filtered.csv" = Some d2 ->
  read_csv "r5.12.1-filtered.csv" = Some d3 ->
  exists c,
    combined read_csv = Some c /\
    len c = (len d1 + len d2 + len d3)%nat /\
    rows c = tagged "r5.11.4" d1 ++ tagged "r5.12.0" d2 ++ tagged "r5.12.1" d3 /\
    column "Tag" c =
      replicate (len d1) (Str "r5.11.4") ++
      replicate (len d2) (Str "r5.12.0") ++
      replicate (len d3) (Str "r5.12.1").
Proof.
  intros H1 H2 H3.
  destruct (combined_spec _ _ _ _ H1 H2 H3) as (c & Hc & Hrows & _).
  exists c. split; [done|]. unfold len, column. rewrite Hrows.
  split; [|split; [done|]].
  - rewrite !length_app, !length_tagged. unfold len. lia.
  - rewrite !map_app, !column_tagged. done.
Qed.

Lemma combined_row_count_witness :
  exists c, combined sample_disk = Some c /\ len c = 8%nat.
Proof.
  destruct (combined_row_count sample_disk _ _ _ eq_refl eq_refl eq_refl)
    as (c & Hc & Hlen & _).
  exists c. split; [exact Hc | exact Hlen].
Defined.

Lemma cell_eqb_key a b :
  cell_eqb a b = true ->
  match a with Str s => Some s | _ => None end =
  match b with Str s => Some s | _ => None end.
Proof.
  destruct a, b; simpl; try done. by intros ->%String.eqb_eq.
Qed.

Lemma cell_eqb_number a b :
  cell_eqb a b = true -> Qred <$> numeric a = Qred <$> numeric b.
Proof.
  destruct a, b; simpl; try done.
  intros Heq%Qeq_bool_iff. f_equal. by apply Qred_complete.
Qed.

Lemma row_eqb_label cols r s :
  In "Tag" cols -> In "unique_id" cols ->
  row_eqb cols r s = true -> label r = label s.
Proof.
  intros Ht Hu Heq. unfold row_eqb in Heq.
  rewrite forallb_forall in Heq. unfold label, key_of. f_equal.
  - apply cell_eqb_key. by apply Heq.
  - apply cell_eqb_number. by apply Heq.
Qed.

Lemma label_tagged tag d i x :
  List.map label (tagged tag d) !! i = Some x ->
  x = (Some tag, Some (Qred (inject_Z (Z.of_nat i)))).
Proof.
  change (List.map ?f ?l) with (f <$> l). rewrite list_lookup_fmap.
  destruct (tagged tag d !! i) as [r|] eqn:Hr; simpl; [|done].
  destruct (at_col_tagged _ _ _ _ Hr) as (Ht & Hu & _).
  intros [= <-]. unfold label, key_of. by rewrite Ht, Hu.
Qed.

Lemma NoDup_label_tagged tag d : NoDup (List.map label (tagged tag d)).
Proof.
  apply NoDup_alt; intros i j x Hi Hj.
  apply label_tagged in Hi, Hj. rewrite Hi in Hj.
  injection Hj as Hq.
  apply (proj1 (Qred_eq_iff _ _)) in Hq.
  apply (proj1 (inject_Z_injective _ _)) in Hq. lia.
Qed.

Lemma label_tagged_tag tag d x :
  x ∈ List.map label (tagged tag d) -> x.1 = Some tag.
Proof.
  intros (i & Hi)%list_elem_of_lookup. by rewrite (label_tagged _ _ _ _ Hi).
Qed.

(** C6.  The duplicate-removal step removes nothing from what the loader
    builds: when the three files parse, the rows of the combined table have
    pairwise different (Tag, unique_id) pairs, so [drop_duplicates] gives the
    combined table back, and the row count of [all_data] is the sum of the
    row counts of the three files. *)
Theorem drop_duplicates_removes_nothing read_csv d1 d2 d3 :
  read_csv "r5.11.4-filtered.csv" = Some d1 ->
  read_csv "r5.12.0-filtered.csv" = Some d2 ->
  read_csv "r5.12.1-filtered.csv" = Some d3 ->
  exists c,
    combined read_csv = Some c /\
    NoDup (List.map label (rows c)) /\
    drop_duplicates c = c /\
    all_data read_csv = Some c /\
    len (drop_duplicates c) = (len d1 + len d2 + len d3)%nat.
Proof.
  intros H1 H2 H3.
  destruct (combined_spec _ _ _ _ H1 H2 H3) as (c & Hc & Hrows & Ht & Hu).
  assert (Hnd : NoDup (List.map label (rows c))).
  { rewrite Hrows, !map_app.
    apply NoDup_app; split; [apply NoDup_label_tagged|]. split.
    - intros x Hx [Hx'|Hx']%elem_of_app;
        apply label_tagged_tag in Hx, Hx'; by rewrite Hx in Hx'.
    - apply NoDup_app; split; [apply NoDup_label_tagged|].
      split; [|apply NoDup_label_tagged].
      intros x Hx Hx'. apply label_tagged_tag in Hx, Hx'.
      by rewrite Hx in Hx'. }
  assert (Hdd : drop_duplicates c = c).
  { unfold drop_duplicates. destruct c as [cols rs objs]; simpl in *. f_equal.
    apply (dedup_from_distinct label);
      [intros r s; by apply row_eqb_label | done |].
    by intros r _ []. }
  exists c. repeat split; try done.
  - unfold all_data. rewrite Hc; simpl. by rewrite Hdd.
  - rewrite Hdd. unfold len. rewrite Hrows, !length_app, !length_tagged.
    unfold len. lia.
Qed.

Lemma drop_duplicates_removes_nothing_witness :
  exists c, all_data sample_disk = Some c /\ len c = 8%nat.
Proof.
  destruct (drop_duplicates_removes_nothing sample_disk _ _ _
              eq_refl eq_refl eq_refl) as (c & _ & _ & Hdd & Hall & Hlen).
  exists c. split; [exact Hall|]. rewrite Hdd in Hlen. exact Hlen.
Defined.

(** ** The trend of the medians *)

Lemma non_decreasing_cons a b l :
  non_decreasing (a :: b :: l) <-> (a <= b)%Q /\ non_decreasing (b :: l).
Proof.
  split.
  - intros H. split; [by apply (H 0%nat)|].
    intros i x y Hx Hy. by apply (H (S i)).
  - intros [Hab H] [|i] x y Hx Hy; simpl in *.
    + by injection Hx as <-; injection Hy as <-.
    + by apply (H i).
Qed.

Lemma non_increasing_cons a b l :
  non_increasing (a :: b :: l) <-> (b <= a)%Q /\ non_increasing (b :: l).
Proof.
  split.
  - intros H. split; [by apply (H 0%nat)|].
    intros i x y Hx Hy. by apply (H (S i)).
  - intros [Hab H] [|i] x y Hx Hy; simpl in *.
    + by injection Hx as <-; injection Hy as <-.
    + by apply (H i).
Qed.

Lemma non_decreasing_from_spec p l :
  non_decreasing_from (Some p) (List.map Some l) = true <->
  non_decreasing (p :: l).
Proof.
  revert p; induction l as [|a l IH]; intros p; simpl.
  - split; [|done]. by intros _ [|i] x y Hx Hy.
  - by rewrite andb_true_iff, Qle_bool_iff, IH, non_decreasing_cons.
Qed.

Lemma non_increasing_from_spec p l :
  non_increasing_from (Some p) (List.map Some l) = true <->
  non_increasing (p :: l).
Proof.
  revert p; induction l as [|a l IH]; intros p; simpl.
  - split; [|done]. by intros _ [|i] x y Hx Hy.
  - by rewrite andb_true_iff, Qle_bool_iff, IH, non_increasing_cons.
Qed.

Lemma is_monotonic_increasing_spec ms :
  is_monotonic_increasing (List.map Some ms) = true <-> non_decreasing ms.
Proof.
  destruct ms as [|a [|b l]].
  - split; [|done]. by intros _ i x y Hx.
  - split; [|done]. by intros _ [|i] x y Hx Hy.
  - apply (non_decreasing_from_spec a (b :: l)).
Qed.

Lemma is_monotonic_decreasing_spec ms :
  is_monotonic_decreasing (List.map Some ms) = true <-> non_increasing ms.
Proof.
  destruct ms as [|a [|b l]].
  - split; [|done]. by intros _ i x y Hx.
  - split; [|done]. by intros _ [|i] x y Hx Hy.
  - apply (non_increasing_from_spec a (b :: l)).
Qed.

Lemma all_equal_non_decreasing ms : all_equal ms -> non_decreasing ms.
Proof.
  intros H i a b Ha Hb. rewrite (H _ _ _ _ Ha Hb). apply Qle_refl.
Qed.

(** C1, as the script has it.  The trend of a sequence of per-tag medians
    is "increasing" exactly when the sequence is non-decreasing, which
    includes the sequences whose medians are all equal; it is "decreasing"
    exactly when the sequence is non-increasing and not non-decreasing; it
    is "stable" exactly when the sequence is neither.  Values 1, 2 under
    tag A and 3, 4 under tag B have medians 3/2 and 7/2 and the trend
    "increasing"; values 4, 3 under A and 2, 1 under B have the trend
    "decreasing". *)
Theorem trend_classification (ms : list Q) :
  (trend (List.map Some ms) = "increasing" <-> non_decreasing ms) /\
  (trend (List.map Some ms) = "decreasing" <->
     non_increasing ms /\ ~ non_decreasing ms) /\
  (trend (List.map Some ms) = "stable" <->
     ~ non_decreasing ms /\ ~ non_increasing ms) /\
  (all_equal ms -> trend (List.map Some ms) = "increasing") /\
  tag_medians (metric_table [("A", 1); ("A", 2); ("B", 3); ("B", 4)]%Q) "M"
    = [("A", Some (3 # 2)); ("B", Some (7 # 2))] /\
  trend [Some (3 # 2); Some (7 # 2)] = "increasing" /\
  tag_medians (metric_table [("A", 4); ("A", 3); ("B", 2); ("B", 1)]%Q) "M"
    = [("A", Some (7 # 2)); ("B", Some (3 # 2))] /\
  trend [Some (7 # 2); Some (3 # 2)] = "decreasing".
Proof.
  pose proof (is_monotonic_increasing_spec ms) as Hinc.
  pose proof (is_monotonic_decreasing_spec ms) as Hdec.
  pose proof (all_equal_non_decreasing ms) as Heq.
  split_and!; try (by vm_compute); unfold trend;
    destruct (is_monotonic_increasing (List.map Some ms));
    destruct (is_monotonic_decreasing (List.map Some ms));
    try split; try done; intuition (try discriminate; auto).
Qed.

Lemma trend_classification_witness :
  all_equal [5; 5]%Q /\ trend [Some 5%Q; Some 5%Q] = "increasing".
Proof.
  assert (H : all_equal [5; 5]%Q).
  { intros [|[|i]] [|[|j]] a b Ha Hb; simpl in *; try done;
      injection Ha as <-; injection Hb as <-; reflexivity. }
  split; [exact H|].
  exact (proj1 (proj2 (proj2 (proj2 (trend_classification [5; 5]%Q)))) H).
Defined.

(** C1, as the claim words it, fails where the medians of all tags are
    equal: two tags with median 5 each form a sequence that is all-equal
    (and non-increasing), and the script prints "Trend: increasing" for it,
    not "stable" (nor "decreasing"). *)
Lemma trend_equal_medians_increasing :
  tag_medians (metric_table [("A", 5); ("B", 5)]%Q) "M"
    = [("A", Some 5%Q); ("B", Some 5%Q)] /\
  all_equal [5; 5]%Q /\ non_increasing [5; 5]%Q /\
  trend [Some 5%Q; Some 5%Q] = "increasing" /\
  trend [Some 5%Q; Some 5%Q] <> "stable" /\
  trend [Some 5%Q; Some 5%Q] <> "decreasing" /\
  In (Print "Trend: increasing")
     (report (metric_table [("A", 5); ("B", 5)]%Q) "M").1.
Proof.
  split; [by vm_compute|]. split.
  { intros [|[|i]] [|[|j]] a b Ha Hb; simpl in *; try done;
      injection Ha as <-; injection Hb as <-; reflexivity. }
  split.
  { intros [|[|i]] a b Ha Hb; simpl in *; try done.
    injection Ha as <-; injection Hb as <-. apply Qle_refl. }
  split; [by vm_compute|]. split; [by vm_compute|]. split; [by vm_compute|].
  vm_compute. tauto.
Qed.

(** ** The guideline tables *)

Lemma Qlt_bool_iff x y : Qlt_bool x y = true <-> (x < y)%Q.
Proof.
  unfold Qlt_bool. rewrite negb_true_iff, <- not_true_iff_false, Qle_bool_iff.
  split; [apply Qnot_le_lt | apply Qlt_not_le].
Qed.

Lemma gt_number v k : Py.gt (Some v) (Some k) = true <-> (k < v)%Q.
Proof. apply Qlt_bool_iff. Qed.

Lemma gt_number_false v k : Py.gt (Some v) (Some k) = false <-> (v <= k)%Q.
Proof.
  rewrite <- not_true_iff_false, gt_number.
  split; [apply Qnot_lt_le | apply Qle_not_lt].
Qed.

Ltac by_bands :=
  repeat match goal with
  | |- context [Py.gt (Some ?v) (Some ?k)] =>
      let H := fresh "Hband" in
      destruct (Py.gt (Some v) (Some k)) eqn:H;
      [apply gt_number in H | apply gt_number_false in H]
  end;
  repeat split; intros; try done; try lra.

(** C4.  For PercentLackOfCohesion a median of exactly 50 is labelled Good,
    a median of exactly 80 Moderate and a median of 81 Poor: a median is
    Poor exactly when it is above 80, Moderate exactly when it is above 50
    and at most 80, and Good exactly when it is at most 50.  These labels are
    the ones the analysis prints for that metric. *)
Theorem lcom_assessment_boundaries :
  lcom_assessment (Some 50%Q) = "Good (<50%)" /\
  lcom_assessment (Some 80%Q) = "Moderate (50-80%)" /\
  lcom_assessment (Some 81%Q) = "Poor (>80%)" /\
  (forall v : Q,
     (lcom_assessment (Some v) = "Poor (>80%)" <-> (80 < v)%Q) /\
     (lcom_assessment (Some v) = "Moderate (50-80%)" <->
        (50 < v)%Q /\ (v <= 80)%Q) /\
     (lcom_assessment (Some v) = "Good (<50%)" <-> (v <= 50)%Q)) /\
  (forall medians,
     assessment_lines "PercentLackOfCohesion" medians =
       Print (Py.nl +:+ "LCOM Assessment:") ::
       List.map (fun tv => PrintAssessment tv.1 tv.2 "%" (lcom_assessment tv.2))
                medians).
Proof.
  split_and!; try (by vm_compute).
  intros v. unfold lcom_assessment. by_bands.
Qed.

(** C3, as the script has it.  For SumCyclomatic a median is labelled High
    exactly when it is above 50, Moderate exactly when it is above 20 and at
    most 50, and Low exactly when it is at most 20; a median of exactly 20
    is labelled Low.  These labels are the ones the analysis prints for that
    metric. *)
Theorem cc_assessment_bands :
  (forall v : Q,
     (cc_assessment (Some v) = "High (>50)" <-> (50 < v)%Q) /\
     (cc_assessment (Some v) = "Moderate (20-50)" <->
        (20 < v)%Q /\ (v <= 50)%Q) /\
     (cc_assessment (Some v) = "Low (<20)" <-> (v <= 20)%Q)) /\
  cc_assessment (Some 20%Q) = "Low (<20)" /\
  (forall medians,
     assessment_lines "SumCyclomatic" medians =
       Print (Py.nl +:+ "Cyclomatic Complexity Assessment:") ::
       List.map (fun tv => PrintAssessment tv.1 tv.2 "" (cc_assessment tv.2))
                medians).
Proof.
  split_and!; try (by vm_compute).
  intros v. unfold cc_assessment. by_bands.
Qed.

(** C3, as the claim words it, fails at a median of exactly 20: the claim
    puts 20 in the Moderate band and keeps Low for medians below 20, while
    the script labels 20 as Low. *)
Lemma cc_assessment_at_20 :
  cc_assessment (Some 20%Q) = "Low (<20)" /\
  cc_assessment (Some 20%Q) <> "Moderate (20-50)" /\
  ~ (cc_assessment (Some 20%Q) = "Low (<20)" <-> (20 < 20)%Q) /\
  ~ (cc_assessment (Some 20%Q) = "Moderate (20-50)" <->
       (20 <= 20)%Q /\ (20 <= 50)%Q).
Proof.
  split_and!; try (by vm_compute).
  - intros [H _]. specialize (H eq_refl). lra.
  - intros [_ H]. assert (Hb : (20 <= 20)%Q /\ (20 <= 50)%Q) by (split; lra).
    specialize (H Hb). by vm_compute in H.
Qed.

(** ** Class rows and method rows *)

Lemma in_select_isin c vals df r :
  In r (rows (select_isin c vals df)) <->
  In r (rows df) /\ isin vals (at_col r c) = true.
Proof. unfold select_isin; simpl. apply filter_In. Qed.

Lemma isin_class_kinds v :
  isin class_kinds v = true <-> v = Str "Private Class" \/ v = Str "Public Class".
Proof.
  destruct v as [| |s]; simpl; [intuition discriminate..|].
  rewrite !orb_true_iff, !String.eqb_eq.
  intuition (try discriminate; try congruence).
Qed.

Lemma isin_method_kinds v :
  isin method_kinds v = true <->
  v = Str "Private Method" \/ v = Str "Public Method" \/
  v = Str "Protected Method".
Proof.
  destruct v as [| |s]; simpl; [intuition discriminate..|].
  rewrite !orb_true_iff, !String.eqb_eq.
  intuition (try discriminate; try congruence).
Qed.

(** C5, as the script has it.  A row of the combined table is a class row
    exactly when its Kind is Private Class or Public Class, and a method row
    exactly when its Kind is Private Method, Public Method or Protected
    Method.  No row is in both subsets; a row is in neither exactly when its
    Kind is none of the five.  Both subsets keep the header of the combined
    table. *)
Theorem classifier_split (all_data : DataFrame) (r : gmap string cell) :
  In r (rows all_data) ->
  let kind := at_col r "Kind" in
  let is_class := kind = Str "Private Class" \/ kind = Str "Public Class" in
  let is_method :=
    kind = Str "Private Method" \/ kind = Str "Public Method" \/
    kind = Str "Protected Method" in
  (In r (rows (class_data all_data)) <-> is_class) /\
  (In r (rows (method_data all_data)) <-> is_method) /\
  ~ (In r (rows (class_data all_data)) /\ In r (rows (method_data all_data))) /\
  (~ In r (rows (class_data all_data)) /\ ~ In r (rows (method_data all_data))
     <-> ~ is_class /\ ~ is_method) /\
  columns (class_data all_data) = columns all_data /\
  columns (method_data all_data) = columns all_data.
Proof.
  intros Hr kind is_class is_method. unfold class_data, method_data.
  rewrite !in_select_isin, isin_class_kinds, isin_method_kinds.
  fold kind is_class is_method.
  split_and!; try done; try tauto.
  subst is_class is_method. intros [[_ Hc] [_ Hm]].
  destruct Hc as [Hc|Hc]; rewrite Hc in Hm; intuition discriminate.
Qed.

Lemma classifier_split_witness :
  In (sample_row "Public Class" 1 50)
     (rows (class_data (parsed_csv sample_header
                                [sample_row "Public Class" 1 50;
                                 sample_row "Public Function" 9 0]))).
Proof.
  apply (classifier_split
           (parsed_csv sample_header
                    [sample_row "Public Class" 1 50;
                     sample_row "Public Function" 9 0])
           (sample_row "Public Class" 1 50)).
  - left. reflexivity.
  - right. vm_compute. reflexivity.
Defined.

(** C5, as the claim words it, fails on a table that holds a row of another
    Kind: the sample release r5.12.0 has a row of Kind Public Function,
    which is a row of the combined table and of neither subset. *)
Lemma classifier_leaves_rows_out :
  exists ad r,
    all_data sample_disk = Some ad /\
    In r (rows ad) /\
    at_col r "Kind" = Str "Public Function" /\
    ~ In r (rows (class_data ad)) /\
    ~ In r (rows (method_data ad)).
Proof.
  eexists. eexists. split; [vm_compute; reflexivity|].
  split; [do 5 right; left; reflexivity|].
  assert (Hk : forall (r : gmap string cell) (c : cell),
            c = at_col r "Kind" -> at_col r "Kind" = c) by done.
  split; [apply Hk; vm_compute; reflexivity|].
  split; unfold class_data, method_data; rewrite in_select_isin;
    intros [_ H]; vm_compute in H; discriminate.
Qed.

(** ** The notch of the box plot *)

(** C2 fails on the script.  For the three discrete metrics the script
    computes [use_notch = False], and then calls [sns.boxplot] with
    [notch=True] all the same: the flag is never read, so every metric,
    discrete or not, is drawn with notched boxes, and the notched box plot is
    the first call of the chart block. *)
Theorem notch_ignores_use_notch (clean_data : DataFrame) :
  use_notch "MaxInheritanceTree" = false /\
  use_notch "CountClassCoupled" = false /\
  use_notch "CountClassDerived" = false /\
  bx_notch (boxplot_call "MaxInheritanceTree" clean_data) = true /\
  bx_notch (boxplot_call "CountClassCoupled" clean_data) = true /\
  bx_notch (boxplot_call "CountClassDerived" clean_data) = true /\
  (forall metric,
     bx_notch (boxplot_call metric clean_data) = true /\
     head (chart_block metric clean_data) =
       Some (Call (Boxplot (boxplot_call metric clean_data)))) /\
  (forall metric,
     head (chart_block_basic metric clean_data) =
       Some (Call (Boxplot (mkBoxplot "Tag" metric clean_data true
                                      None None None)))).
Proof. split_and!; try reflexivity; intros metric; by split. Qed.

(** ** The loop over the metrics *)

Lemma and_then_nil b : and_then ([], Completed) b = b.
Proof. by destruct b. Qed.

Lemma and_then_assoc a b c :
  and_then (and_then a b) c = and_then a (and_then b c).
Proof.
  destruct a as [oa [|ea]], b as [ob [|eb]], c as [oc sc];
    unfold and_then; simpl; try done.
  by rewrite app_assoc.
Qed.

Lemma and_then_completed a b :
  a.2 = Completed -> and_then a b = (a.1 ++ b.1, b.2).
Proof. unfold and_then. by intros ->. Qed.

Lemma for_each_app body ms1 ms2 :
  for_each body (ms1 ++ ms2) =
  and_then (for_each body ms1) (for_each body ms2).
Proof.
  induction ms1 as [|m ms1 IH]; simpl.
  - by rewrite and_then_nil.
  - by rewrite IH, and_then_assoc.
Qed.

Section Loop.

Variable backend : string -> plot_call -> option string.
Variable figsize : Z * Z.
Variable block : string -> DataFrame -> list instr.
Variable class_data : DataFrame.

Local Abbreviation run := (analyze backend figsize block class_data).
Local Abbreviation body :=
  (analyze_metric backend figsize block class_data).

Lemma analyze_app ms1 ms2 : run (ms1 ++ ms2) = and_then (run ms1) (run ms2).
Proof. apply for_each_app. Qed.

Lemma analyze_cons m ms : run (m :: ms) = and_then (body m) (run ms).
Proof. reflexivity. Qed.

(** C9.  A configured metric that the class table does not have makes the
    loop body print the skip notice and nothing else, and end normally.
    Wherever the metric stands in the list, the metrics before it and after
    it are processed as they are without it, in list order, with the notice
    in between; whether the run ends normally is the same with and without
    the missing metric. *)
Theorem missing_metric_is_skipped ms1 m ms2 :
  has_column m (columns class_data) = false ->
  let notice := Print (Py.nl +:+ "Skipping " +:+ m +:+ " - not found in data") in
  body m = ([notice], Completed) /\
  run (ms1 ++ m :: ms2) =
    and_then (run ms1) (and_then ([notice], Completed) (run ms2)) /\
  (run (ms1 ++ m :: ms2)).2 = (run (ms1 ++ ms2)).2 /\
  ((run ms1).2 = Completed ->
   (run (ms1 ++ m :: ms2)).1 = (run ms1).1 ++ notice :: (run ms2).1).
Proof.
  intros Hm notice.
  assert (Hbody : body m = ([notice], Completed)).
  { unfold analyze_metric. by rewrite Hm. }
  assert (Hrun : run (ms1 ++ m :: ms2) =
    and_then (run ms1) (and_then ([notice], Completed) (run ms2))).
  { by rewrite analyze_app, analyze_cons, Hbody. }
  split_and!; try done.
  - rewrite Hrun, analyze_app. unfold and_then; simpl.
    by destruct (run ms1) as [o1 [|e1]].
  - intros H1. rewrite Hrun. by rewrite (and_then_completed _ _ H1).
Qed.

(** C10, as the script has it.  Once the figure of a metric is open, an
    exception raised by any
    statement of its chart block is caught: the calls made before it stay
    made, the line "Could not create boxplot for <metric>: <text>" is
    printed, the loop body ends normally, and the loop goes on with the
    metrics that follow, whose statistics, assessments and charts are
    produced as they are without the failure. *)
Theorem chart_failure_is_isolated m ms out made e :
  has_column m (columns class_data) = true ->
  report class_data m = (out, Completed) ->
  backend m (Figure figsize.1 figsize.2) = None ->
  run_block backend m (block m (dropna m class_data)) = (made, Some e) ->
  let caught :=
    out ++ Draw (Figure figsize.1 figsize.2) :: List.map Draw made ++
    [Print ("Could not create boxplot for " +:+ m +:+ ": " +:+ e)] in
  body m = (caught, Completed) /\
  run (m :: ms) = (caught ++ (run ms).1, (run ms).2).
Proof.
  intros Hm Hreport Hfig Hblock caught.
  assert (Hbody : body m = (caught, Completed)).
  { unfold analyze_metric, chart, try_chart.
    rewrite Hm, Hreport, Hfig, Hblock; simpl.
    unfold and_then; simpl. done. }
  split; [done|].
  by rewrite analyze_cons, Hbody.
Qed.

End Loop.

Lemma missing_metric_is_skipped_witness :
  (analyze quiet_backend (10, 6)%Z chart_block sample_class_data
           class_metrics).2
  = (analyze quiet_backend (10, 6)%Z chart_block sample_class_data
             (["SumCyclomatic"] ++
              ["PercentLackOfCohesion"; "CountClassDerived";
               "CountClassCoupled"; "CountDeclMethod"; "CountLineCode"])).2.
Proof.
  change class_metrics with
    (["SumCyclomatic"] ++ "MaxInheritanceTree" ::
     ["PercentLackOfCohesion"; "CountClassDerived"; "CountClassCoupled";
      "CountDeclMethod"; "CountLineCode"]).
  apply (missing_metric_is_skipped quiet_backend (10, 6)%Z chart_block
           sample_class_data ["SumCyclomatic"] "MaxInheritanceTree").
  vm_compute. reflexivity.
Defined.

Lemma chart_failure_is_isolated_witness :
  (analyze (failing_backend "SumCyclomatic") (10, 6)%Z chart_block
           sample_class_data ["SumCyclomatic"; "PercentLackOfCohesion"]).2
  = Completed /\
  In (Draw (SaveFig "outputs/PercentLackOfCohesion_boxplot.png" (Some 300%Z)
                    "tight"))
     (analyze (failing_backend "SumCyclomatic") (10, 6)%Z chart_block
              sample_class_data ["SumCyclomatic"; "PercentLackOfCohesion"]).1.
Proof.
  edestruct (chart_failure_is_isolated (failing_backend "SumCyclomatic")
               (10, 6)%Z chart_block sample_class_data "SumCyclomatic"
               ["PercentLackOfCohesion"]) as [_ Hrun].
  1-4: vm_compute; reflexivity.
  rewrite Hrun. split.
  - vm_compute. reflexivity.
  - apply in_or_app. right. vm_compute. tauto.
Defined.

(** C10, as the claim words it, fails when the failure is raised by
    [plt.figure], which both copies of the script call just before the
    [try]: on the sample, with a backend that cannot open the figure of
    SumCyclomatic, the exception is not caught, the run stops there without
    a single call drawn, and the next metric the table has,
    PercentLackOfCohesion, is never reported. *)
Lemma figure_failure_stops_run :
  let failed :=
    analyze (no_display_backend "SumCyclomatic") (10, 6)%Z chart_block
            sample_class_data class_metrics in
  failed.2 = Uncaught "no display" /\
  has_column "PercentLackOfCohesion" (columns sample_class_data) = true /\
  ~ In (Print (Py.nl +:+ "--- PercentLackOfCohesion ---")) failed.1 /\
  (forall c, ~ In (Draw c) failed.1) /\
  (analyze (no_display_backend "SumCyclomatic") (8, 5)%Z chart_block_basic
           sample_class_data class_metrics).2 = Uncaught "no display".
Proof.
  split_and!; try (by vm_compute).
  - vm_compute. intuition discriminate.
  - intros c. vm_compute. intuition discriminate.
Qed.


(** ** Whole runs *)

(** A file that cannot be read stops the run before anything is printed. *)
Lemma missing_file_is_fatal read_csv backend :
  all_data read_csv = None ->
  script read_csv backend = ([MakeDirs "outputs"], Uncaught "read_csv") /\
  script_basic read_csv backend = ([MakeDirs "outputs"], Uncaught "read_csv").
Proof. intros H. unfold script, script_basic. by rewrite H. Qed.

(** On the sample both copies of the script run to their end, with and
    without a failing [savefig]. *)
Example sample_runs_complete :
  (script sample_disk quiet_backend).2 = Completed /\
  (script_basic sample_disk quiet_backend).2 = Completed /\
  (script sample_disk (failing_backend "SumCyclomatic")).2 = Completed /\
  (script_basic sample_disk (failing_backend "SumCyclomatic")).2 = Completed.
Proof. split_and!; by vm_compute. Qed.

(** A metric column of dtype object stops the run at the summary of the
    first metric concerned, after its heading: so do files without rows,
    and so does a text cell in a row that is not even a class row. *)
Example object_column_stops_run :
  (script header_only_disk quiet_backend).2 = Uncaught "KeyError" /\
  (script text_cell_disk quiet_backend).2 = Uncaught "KeyError" /\
  last (script text_cell_disk quiet_backend).1
    = Some (Print (Py.nl +:+ "--- SumCyclomatic ---")).
Proof. split_and!; by vm_compute. Qed.

(** * Further properties of the script *)

(** ** What duplicate removal keeps *)

Lemma cell_eqb_refl a : cell_eqb a a = true.
Proof.
  destruct a; simpl; [done | apply Qeq_bool_refl | apply String.eqb_refl].
Qed.

Lemma cell_eqb_sym a b : cell_eqb a b = cell_eqb b a.
Proof.
  destruct a, b; simpl; try done; [apply Qeq_bool_comm | apply String.eqb_sym].
Qed.

Lemma row_eqb_refl cols r : row_eqb cols r r = true.
Proof. apply forallb_forall. intros c _. apply cell_eqb_refl. Qed.

Lemma row_eqb_sym cols r s : row_eqb cols r s = row_eqb cols s r.
Proof.
  unfold row_eqb. induction cols as [|c cols IH]; simpl; [done|].
  by rewrite IH, cell_eqb_sym.
Qed.

Lemma dedup_from_sublist cols seen rs : dedup_from cols seen rs `sublist_of` rs.
Proof.
  revert seen; induction rs as [|r rs IH]; intros seen; simpl; [done|].
  destruct (existsb (row_eqb cols r) seen).
  - by apply sublist_cons.
  - by apply sublist_skip.
Qed.

Lemma dedup_from_covers cols seen rs r :
  In r rs ->
  (exists s, In s seen /\ row_eqb cols r s = true) \/
  (exists s, In s (dedup_from cols seen rs) /\ row_eqb cols r s = true).
Proof.
  revert seen; induction rs as [|r0 rs IH]; intros seen Hin; [done|].
  simpl. destruct (existsb (row_eqb cols r0) seen) eqn:Hex.
  - destruct Hin as [<-|Hin]; [|by apply IH].
    left. apply existsb_exists in Hex as (s & Hs & Heq). by exists s.
  - destruct Hin as [<-|Hin].
    + right. exists r0. split; [by left | apply row_eqb_refl].
    + destruct (IH (r0 :: seen) Hin) as [(s & [<-|Hs] & Heq)|(s & Hs & Heq)].
      * right. exists r0. split; [by left | done].
      * left. by exists s.
      * right. exists s. split; [by right | done].
Qed.

Lemma dedup_from_fresh cols seen rs s r :
  In s (dedup_from cols seen rs) -> In r seen -> row_eqb cols s r = false.
Proof.
  revert seen; induction rs as [|r0 rs IH]; intros seen Hs Hr; [done|].
  simpl in Hs. destruct (existsb (row_eqb cols r0) seen) eqn:Hex.
  - by apply (IH seen).
  - destruct Hs as [<-|Hs].
    + apply not_true_iff_false. intros Heq.
      apply not_true_iff_false in Hex. apply Hex, existsb_exists. by exists r.
    + apply (IH (r0 :: seen)); [done | by right].
Qed.

Lemma dedup_from_pairwise cols seen rs i j r s :
  (i < j)%nat ->
  dedup_from cols seen rs !! i = Some r ->
  dedup_from cols seen rs !! j = Some s ->
  row_eqb cols s r = false.
Proof.
  revert seen i j; induction rs as [|r0 rs IH]; intros seen i j Hij Hi Hj;
    [done|].
  simpl in Hi, Hj. destruct (existsb (row_eqb cols r0) seen) eqn:Hex.
  - by apply (IH seen i j).
  - destruct j as [|j]; [lia|]. destruct i as [|i]; simpl in *.
    + injection Hi as <-.
      apply (dedup_from_fresh cols (r0 :: seen) rs); [|by left].
      apply list_elem_of_In, list_elem_of_lookup. by exists j.
    + apply (IH (r0 :: seen) i j); [lia|done..].
Qed.

(** X1.  Duplicate removal invents and reorders nothing, and loses nothing
    but repetitions: the rows it keeps are a subsequence of the rows it is
    given, under the same header, and every row it is given agrees on every
    column with a row it keeps. *)
Theorem drop_duplicates_keeps_representatives (df : DataFrame) :
  columns (drop_duplicates df) = columns df /\
  rows (drop_duplicates df) `sublist_of` rows df /\
  (len (drop_duplicates df) <= len df)%nat /\
  forall r, In r (rows df) ->
    exists s, In s (rows (drop_duplicates df)) /\
              row_eqb (columns df) r s = true.
Proof.
  unfold drop_duplicates, len; simpl. split_and!; [done|..].
  - apply dedup_from_sublist.
  - apply sublist_length, dedup_from_sublist.
  - intros r Hr.
    by destruct (dedup_from_covers (columns df) [] _ _ Hr) as [(s & [] & _)|].
Qed.

(** X2.  After duplicate removal no two rows of the table agree on every
    column. *)
Theorem drop_duplicates_pairwise_distinct (df : DataFrame) i j r s :
  i <> j ->
  rows (drop_duplicates df) !! i = Some r ->
  rows (drop_duplicates df) !! j = Some s ->
  row_eqb (columns df) r s = false.
Proof.
  unfold drop_duplicates; simpl. intros Hij Hi Hj.
  destruct (Nat.lt_ge_cases i j) as [Hlt|Hge].
  - rewrite row_eqb_sym.
    by apply (dedup_from_pairwise (columns df) [] (rows df) i j).
  - apply (dedup_from_pairwise (columns df) [] (rows df) j i); [lia|done..].
Qed.

Lemma drop_duplicates_pairwise_distinct_witness :
  row_eqb ["Kind"] (sample_row "Public Class" 1 50)
                   (sample_row "Public Method" 7 0) = false.
Proof.
  apply (drop_duplicates_pairwise_distinct
           (mkFrame ["Kind"] [sample_row "Public Class" 1 50;
                              sample_row "Public Class" 2 60;
                              sample_row "Public Method" 7 0] ["Kind"])
           0%nat 1%nat).
  - lia.
  - vm_compute. reflexivity.
  - vm_compute. reflexivity.
Defined.

(** ** What the loader keeps and writes *)

Lemma in_add_column c c' cols :
  In c (add_column c' cols) <-> c = c' \/ In c cols.
Proof.
  unfold add_column. destruct (has_column c' cols) eqn:Hc.
  - apply existsb_exists in Hc as (x & Hx & ->%String.eqb_eq).
    split; [by right | by intros [->|]].
  - rewrite in_app_iff. simpl. intuition.
Qed.

Lemma in_columns_concat c a b :
  In c (columns (concat a b)) <-> In c (columns a) \/ In c (columns b).
Proof.
  unfold concat; simpl. rewrite in_app_iff, filter_In. split.
  - intuition.
  - intros [H|H]; [by left|].
    destruct (has_column c (columns a)) eqn:Hc.
    + left. by apply existsb_exists in Hc as (x & Hx & ->%String.eqb_eq).
    + right. by split.
Qed.

Lemma combined_explicit read_csv d1 d2 d3 :
  read_csv "r5.11.4-filtered.csv" = Some d1 ->
  read_csv "r5.12.0-filtered.csv" = Some d2 ->
  read_csv "r5.12.1-filtered.csv" = Some d3 ->
  let loaded tag d :=
    mkFrame (add_column "unique_id" (add_column "Tag" (columns d)))
            (tagged tag d)
            (retype "unique_id" false (retype "Tag" true (object_columns d)))
    in
  combined read_csv =
    Some (concat (concat (concat empty_frame (loaded "r5.11.4" d1))
                         (loaded "r5.12.0" d2))
                 (loaded "r5.12.1" d3)).
Proof.
  intros H1 H2 H3 loaded. unfold combined, files; simpl.
  rewrite (load_one_spec _ _ _ _ _ H1); simpl.
  rewrite (load_one_spec _ _ _ _ _ H2); simpl.
  by rewrite (load_one_spec _ _ _ _ _ H3).
Qed.

Lemma tagged_lookup tag d i r0 :
  rows d !! i = Some r0 ->
  exists r, tagged tag d !! i = Some r /\
            at_col r "Tag" = Str tag /\
            at_col r "unique_id" = Num (inject_Z (Z.of_nat i)) /\
            same_file_cells r r0.
Proof.
  intros Hr0.
  assert (Hr : exists r, tagged tag d !! i = Some r).
  { unfold tagged. rewrite list_lookup_imap, Hr0; simpl. by eexists. }
  destruct Hr as [r Hr]. exists r. split; [done|].
  destruct (at_col_tagged _ _ _ _ Hr) as (Ht & Hu & r0' & Hr0' & Hsame).
  rewrite Hr0 in Hr0'. injection Hr0' as <-. done.
Qed.

(** X3.  Loading changes nothing in the files but the two columns it
    writes.  When the three files parse, the header of the combined table
    holds exactly Tag, unique_id and every column of every file, and row [i]
    of a file sits at position [i] after the rows of the files before it,
    with its tag, its position as unique_id, and every other cell
    unchanged (a Tag or unique_id column the file already had is
    overwritten). *)
Theorem loader_keeps_file_cells read_csv d1 d2 d3 :
  read_csv "r5.11.4-filtered.csv" = Some d1 ->
  read_csv "r5.12.0-filtered.csv" = Some d2 ->
  read_csv "r5.12.1-filtered.csv" = Some d3 ->
  exists c,
    combined read_csv = Some c /\
    (forall col,
       In col (columns c) <->
       col = "Tag" \/ col = "unique_id" \/ In col (columns d1) \/
       In col (columns d2) \/ In col (columns d3)) /\
    forall tag d offset,
      (tag, d, offset) = ("r5.11.4", d1, 0%nat) \/
      (tag, d, offset) = ("r5.12.0", d2, len d1) \/
      (tag, d, offset) = ("r5.12.1", d3, (len d1 + len d2)%nat) ->
      forall i r0, rows d !! i = Some r0 ->
        exists r,
          rows c !! (offset + i)%nat = Some r /\
          at_col r "Tag" = Str tag /\
          at_col r "unique_id" = Num (inject_Z (Z.of_nat i)) /\
          same_file_cells r r0.
Proof.
  intros H1 H2 H3. eexists. split; [by apply combined_explicit|]. split.
  - intros col. rewrite !in_columns_concat; simpl.
    rewrite !in_add_column. intuition.
  - simpl. intros tag d offset Hcase i r0 Hr0.
    destruct (tagged_lookup tag d i r0 Hr0) as (r & Hr & Hfacts).
    exists r. split; [|done]. apply lookup_lt_Some in Hr as Hlt.
    destruct Hcase as [[= -> -> ->]|[[= -> -> ->]|[= -> -> ->]]].
    + rewrite <- app_assoc. by rewrite lookup_app_l.
    + rewrite <- app_assoc.
      rewrite lookup_app_r; rewrite length_tagged; [|lia].
      replace (len d1 + i - len d1)%nat with i by lia.
      by rewrite lookup_app_l.
    + rewrite lookup_app_r; rewrite length_app, !length_tagged; [|lia].
      by replace (len d1 + len d2 + i - (len d1 + len d2))%nat with i by lia.
Qed.

Lemma loader_keeps_file_cells_witness :
  exists c, combined sample_disk = Some c /\ In "Kind" (columns c).
Proof.
  destruct (loader_keeps_file_cells sample_disk _ _ _ eq_refl eq_refl eq_refl)
    as (c & Hc & Hcols & _).
  exists c. split; [exact Hc|]. apply Hcols.
  right. right. left. left. reflexivity.
Defined.

(** X4.  [unique_id] restarts in every file, so it does not identify a row
    of the combined table on its own: whenever two files both have a row at
    position [i], the combined table holds two rows with unique_id [i], one
    under each tag. *)
Theorem unique_id_repeats_across_files read_csv d1 d2 d3 i a b :
  read_csv "r5.11.4-filtered.csv" = Some d1 ->
  read_csv "r5.12.0-filtered.csv" = Some d2 ->
  read_csv "r5.12.1-filtered.csv" = Some d3 ->
  rows d1 !! i = Some a ->
  rows d2 !! i = Some b ->
  exists c r s,
    combined read_csv = Some c /\
    rows c !! i = Some r /\
    rows c !! (len d1 + i)%nat = Some s /\
    i <> (len d1 + i)%nat /\
    at_col r "unique_id" = at_col s "unique_id" /\
    at_col r "Tag" = Str "r5.11.4" /\
    at_col s "Tag" = Str "r5.12.0".
Proof.
  intros H1 H2 H3 Ha Hb.
  destruct (combined_spec _ _ _ _ H1 H2 H3) as (c & Hc & Hrows & _).
  destruct (tagged_lookup "r5.11.4" d1 i a Ha) as (r & Hr & Hrt & Hru & _).
  destruct (tagged_lookup "r5.12.0" d2 i b Hb) as (s & Hs & Hst & Hsu & _).
  exists c, r, s. rewrite Hrows, Hru, Hsu.
  split_and!; try done.
  - rewrite lookup_app_l; [done|]. by apply lookup_lt_Some in Hr.
  - rewrite <- length_tagged with (tag := "r5.11.4").
    rewrite lookup_app_r by lia.
    rewrite Nat.add_comm, Nat.add_sub, lookup_app_l; [done|].
    by apply lookup_lt_Some in Hs.
  - apply lookup_lt_Some in Ha. unfold len. lia.
Qed.

Lemma unique_id_repeats_across_files_witness :
  exists c r s,
    combined sample_disk = Some c /\
    rows c !! 0%nat = Some r /\ rows c !! 3%nat = Some s /\
    at_col r "unique_id" = at_col s "unique_id".
Proof.
  destruct (unique_id_repeats_across_files sample_disk _ _ _ 0%nat _ _
              eq_refl eq_refl eq_refl eq_refl eq_refl)
    as (c & r & s & Hc & Hr & Hs & _ & Hu & _).
  exists c, r, s. repeat split; assumption.
Defined.

Lemma load_loop_unreadable read_csv acc fs tag file :
  In (tag, file) fs -> read_csv file = None ->
  load_loop read_csv acc fs = None.
Proof.
  revert acc; induction fs as [|[t f] fs IH]; intros acc Hin Hnone; [done|].
  simpl. destruct Hin as [[= -> ->]|Hin].
  - unfold load_one. by rewrite Hnone.
  - destruct (load_one read_csv acc t f); simpl; [by apply IH | done].
Qed.

(** X5.  A file that cannot be read is fatal: if any of the three files is
    missing or does not parse there is no combined table, and both copies of
    the script stop with an uncaught exception after creating the output
    directory, before the catalogue or any metric is printed. *)
Theorem unreadable_file_stops_run read_csv backend tag file :
  In (tag, file) files ->
  read_csv file = None ->
  all_data read_csv = None /\
  script read_csv backend = ([MakeDirs "outputs"], Uncaught "read_csv") /\
  script_basic read_csv backend = ([MakeDirs "outputs"], Uncaught "read_csv").
Proof.
  intros Hin Hnone.
  assert (Hall : all_data read_csv = None).
  { unfold all_data, combined.
    by rewrite (load_loop_unreadable _ _ _ _ _ Hin Hnone). }
  unfold script, script_basic. by rewrite Hall.
Qed.

Lemma unreadable_file_stops_run_witness :
  script broken_disk quiet_backend
    = ([MakeDirs "outputs"], Uncaught "read_csv").
Proof.
  apply (unreadable_file_stops_run broken_disk quiet_backend
           "r5.12.1" "r5.12.1-filtered.csv").
  - right. right. left. reflexivity.
  - reflexivity.
Defined.

(** ** The order statistics of the summary *)

Lemma insert_sorted_perm x l : insert_sorted x l ≡ₚ x :: l.
Proof.
  induction l as [|y l IH]; simpl; [done|].
  destruct (Qle_bool x y); [done|].
  rewrite IH. apply Permutation_swap.
Qed.

Lemma sort_values_perm l : sort_values l ≡ₚ l.
Proof.
  induction l as [|x l IH]; simpl; [done|].
  by rewrite insert_sorted_perm, IH.
Qed.

Lemma length_sort_values l : length (sort_values l) = length l.
Proof. apply Permutation_length, sort_values_perm. Qed.

Lemma insert_sorted_sorted x l :
  StronglySorted Qle l -> StronglySorted Qle (insert_sorted x l).
Proof.
  induction 1 as [|y l Hl IH Hy]; simpl.
  - repeat constructor.
  - destruct (Qle_bool x y) eqn:Hxy.
    + apply Qle_bool_iff in Hxy. constructor; [by constructor|].
      constructor; [done|].
      eapply Forall_impl; [exact Hy|]. intros z Hz. by apply Qle_trans with y.
    + constructor; [done|]. rewrite insert_sorted_perm.
      constructor; [|done].
      apply Qlt_le_weak, Qlt_bool_iff. unfold Qlt_bool. by rewrite Hxy.
Qed.

Lemma sort_values_sorted l : StronglySorted Qle (sort_values l).
Proof.
  induction l as [|x l IH]; simpl; [constructor|].
  by apply insert_sorted_sorted.
Qed.

Lemma sorted_lookup_le (s : list Q) i j a b :
  StronglySorted Qle s -> (i <= j)%nat ->
  s !! i = Some a -> s !! j = Some b -> (a <= b)%Q.
Proof.
  intros Hs; revert i j; induction Hs as [|x s Hs IH Hx]; intros i j Hij Hi Hj;
    [done|].
  destruct i as [|i], j as [|j]; simpl in *; try lia.
  - injection Hi as <-; injection Hj as <-. apply Qle_refl.
  - injection Hi as <-. rewrite Forall_forall in Hx.
    apply Hx, list_elem_of_lookup. by exists j.
  - apply (IH i j); [lia|done..].
Qed.

Lemma sorted_next_ge (s : list Q) i lo :
  StronglySorted Qle s -> s !! i = Some lo ->
  (lo <= default lo (s !! S i))%Q.
Proof.
  intros Hs Hi. destruct (s !! S i) as [hi|] eqn:Hhi; simpl.
  - apply (sorted_lookup_le s i (S i)); [done|lia|done..].
  - apply Qle_refl.
Qed.

Lemma inject_Z_of_nat_nonneg n : (0 <= inject_Z (Z.of_nat n))%Q.
Proof. change 0%Q with (inject_Z 0). rewrite <- Zle_Qle. lia. Qed.

(** Where [quantile] reads the sorted values: position [i], fraction
    [frac], with [i + frac = (n - 1) * q]. *)
Lemma quantile_position q l :
  (0 <= q)%Q -> (q <= 1)%Q -> l <> [] ->
  exists i lo frac,
    sort_values l !! i = Some lo /\
    (0 <= frac)%Q /\ (frac < 1)%Q /\
    (inject_Z (Z.of_nat i) + frac ==
       inject_Z (Z.of_nat (length l - 1)) * q)%Q /\
    quantile q l =
      Some (lo + frac * (default lo (sort_values l !! S i) - lo))%Q.
Proof.
  intros Hq0 Hq1 Hl. unfold quantile. rewrite length_sort_values.
  set (h := (inject_Z (Z.of_nat (length l - 1)) * q)%Q).
  pose proof (inject_Z_of_nat_nonneg (length l - 1)) as Hn.
  assert (Hh0 : (0 <= h)%Q) by (subst h; nra).
  assert (Hh1 : (h <= inject_Z (Z.of_nat (length l - 1)))%Q) by (subst h; nra).
  assert (Hf0 : (0 <= Qfloor h)%Z).
  { change 0%Z with (Qfloor 0). by apply Qfloor_resp_le. }
  assert (Hf1 : (Qfloor h <= Z.of_nat (length l - 1))%Z).
  { rewrite <- (Qfloor_Z (Z.of_nat (length l - 1))). by apply Qfloor_resp_le. }
  assert (Hlen : (0 < length l)%nat) by (destruct l; [done | simpl; lia]).
  destruct (lookup_lt_is_Some_2 (sort_values l) (Z.to_nat (Qfloor h)))
    as [lo Hlo]; [rewrite length_sort_values; lia|].
  exists (Z.to_nat (Qfloor h)), lo, (h - inject_Z (Qfloor h))%Q.
  rewrite Hlo. split; [done|].
  pose proof (Qfloor_le h) as Hle. pose proof (Qlt_floor h) as Hlt.
  rewrite inject_Z_plus in Hlt. change (inject_Z 1) with 1%Q in Hlt.
  rewrite Z2Nat.id by done.
  split_and!; [lra | lra | lra | done].
Qed.

Lemma quantile_monotone q q' l :
  (0 <= q)%Q -> (q <= q')%Q -> (q' <= 1)%Q -> l <> [] ->
  exists v v', quantile q l = Some v /\ quantile q' l = Some v' /\ (v <= v')%Q.
Proof.
  intros Hq0 Hqq Hq1 Hl.
  destruct (quantile_position q l)
    as (i & lo & fr & Hi & Hf0 & Hf1 & Hpos & ->); [lra..|done|].
  destruct (quantile_position q' l)
    as (i' & lo' & fr' & Hi' & Hf0' & Hf1' & Hpos' & ->); [lra..|done|].
  eexists _, _. split; [done|]. split; [done|].
  pose proof (sort_values_sorted l) as Hs.
  pose proof (sorted_next_ge _ _ _ Hs Hi) as Hd.
  pose proof (sorted_next_ge _ _ _ Hs Hi') as Hd'.
  pose proof (inject_Z_of_nat_nonneg (length l - 1)) as Hn.
  assert (Hh : (inject_Z (Z.of_nat i) + fr <= inject_Z (Z.of_nat i') + fr')%Q).
  { rewrite Hpos, Hpos'. nra. }
  assert (Hii : (i <= i')%nat).
  { destruct (le_lt_dec i i') as [|Hgt]; [done|]. exfalso.
    assert (Hz : (inject_Z (Z.of_nat i' + 1) <= inject_Z (Z.of_nat i))%Q).
    { rewrite <- Zle_Qle. lia. }
    rewrite inject_Z_plus in Hz. change (inject_Z 1) with 1%Q in Hz. lra. }
  destruct (decide (i = i')) as [<-|Hne].
  - rewrite Hi in Hi'. injection Hi' as <-.
    set (d := (default lo (sort_values l !! S i) - lo)%Q) in *.
    assert (0 <= d)%Q by (subst d; lra).
    assert (fr <= fr')%Q by lra. nra.
  - assert (Hlt : (S i <= i')%nat) by lia.
    destruct (lookup_lt_is_Some_2 (sort_values l) (S i)) as [hi Hhi].
    { apply lookup_lt_Some in Hi'. lia. }
    rewrite Hhi in *; simpl in *.
    pose proof (sorted_lookup_le _ _ _ _ _ Hs Hlt Hhi Hi') as Hmid.
    set (d' := (default lo' (sort_values l !! S i') - lo')%Q) in *.
    assert (0 <= d')%Q by (subst d'; lra).
    nra.
Qed.

Lemma quantile_bounds q l :
  (0 <= q)%Q -> (q <= 1)%Q -> l <> [] ->
  exists v mn mx,
    quantile q l = Some v /\ series_min l = Some mn /\
    series_max l = Some mx /\ (mn <= v)%Q /\ (v <= mx)%Q.
Proof.
  intros Hq0 Hq1 Hl.
  destruct (quantile_position q l) as (i & lo & fr & Hi & Hf0 & Hf1 & _ & ->);
    [done..|].
  pose proof (sort_values_sorted l) as Hs.
  assert (Hlen : (0 < length (sort_values l))%nat).
  { rewrite length_sort_values. destruct l; [done | simpl; lia]. }
  unfold series_min, series_max. rewrite head_lookup, last_lookup.
  destruct (lookup_lt_is_Some_2 (sort_values l) 0) as [mn Hmn]; [done|].
  destruct (lookup_lt_is_Some_2 (sort_values l)
              (Nat.pred (length (sort_values l)))) as [mx Hmx]; [lia|].
  eexists. exists mn, mx. rewrite Hmn, Hmx. split_and!; try done.
  - pose proof (sorted_lookup_le _ 0 i _ _ Hs ltac:(lia) Hmn Hi).
    pose proof (sorted_next_ge _ _ _ Hs Hi).
    set (d := (default lo (sort_values l !! S i) - lo)%Q) in *.
    assert (0 <= d)%Q by (subst d; lra). nra.
  - assert (Hhi : (default lo (sort_values l !! S i) <= mx)%Q).
    { apply lookup_lt_Some in Hi as Hilt.
      destruct (sort_values l !! S i) as [hi|] eqn:Hhi; simpl.
      - apply lookup_lt_Some in Hhi as Hlt.
        apply (sorted_lookup_le (sort_values l) (S i)
                 (Nat.pred (length (sort_values l)))); [done|lia|done..].
      - apply (sorted_lookup_le (sort_values l) i
                 (Nat.pred (length (sort_values l)))); [done|lia|done..]. }
    pose proof (sorted_next_ge _ _ _ Hs Hi).
    set (d := (default lo (sort_values l !! S i) - lo)%Q) in *.
    assert (0 <= d)%Q by (subst d; lra).
    assert (lo + d <= mx)%Q by (subst d; lra). nra.
Qed.

Lemma Qfloor_half a : Qfloor (inject_Z a * (1 # 2)) = (a / 2)%Z.
Proof. unfold Qfloor, Qmult, inject_Z; simpl. by rewrite Z.mul_1_r. Qed.

Lemma quantile_half_median l : same_number (quantile (1 # 2) l) (median l).
Proof.
  unfold quantile, median. rewrite Qfloor_half.
  set (s := sort_values l). set (n := length s).
  replace (Z.to_nat (Z.of_nat (n - 1) / 2)) with ((n - 1) / 2)%nat
    by (change 2%Z with (Z.of_nat 2); rewrite <- Nat2Z.inj_div; lia).
  destruct (Nat.eqb_spec n 0) as [Hn|Hn].
  { subst n. destruct s; [done | simpl in Hn; lia]. }
  destruct (Nat.odd n) eqn:Hodd.
  - apply Nat.odd_spec in Hodd as [k Hk].
    replace ((n - 1) / 2)%nat with k
      by (apply (Nat.div_unique (n - 1) 2 k 0); lia).
    replace (n / 2)%nat with k by (apply (Nat.div_unique n 2 k 1); lia).
    destruct (s !! k) as [lo|] eqn:Hlo; simpl; [|done].
    replace (Z.of_nat (n - 1)) with (2 * Z.of_nat k)%Z by lia.
    rewrite Z.mul_comm, Z.div_mul by lia.
    rewrite inject_Z_mult. change (inject_Z 2) with 2%Q.
    set (d := (default lo (s !! S k) - lo)%Q). 
    set (x := inject_Z (Z.of_nat k)). ring.
  - assert (Heven : Nat.even n = true) by (rewrite <- Nat.negb_odd, Hodd; done).
    apply Nat.even_spec in Heven as [k Hk].
    assert (Hk1 : (1 <= k)%nat) by lia.
    replace ((n - 1) / 2)%nat with (k - 1)%nat
      by (apply (Nat.div_unique (n - 1) 2 (k - 1) 1); lia).
    replace (n / 2)%nat with k by (apply (Nat.div_unique n 2 k 0); lia).
    replace (S (k - 1)) with k by lia.
    destruct (s !! (k - 1)%nat) as [lo|] eqn:Hlo; simpl.
    2:{ apply lookup_ge_None in Hlo. fold n in Hlo. lia. }
    destruct (s !! k) as [hi|] eqn:Hhi; simpl.
    2:{ apply lookup_ge_None in Hhi. fold n in Hhi. lia. }
    replace (Z.of_nat (n - 1)) with (2 * Z.of_nat (k - 1) + 1)%Z by lia.
    replace ((2 * Z.of_nat (k - 1) + 1) / 2)%Z with (Z.of_nat (k - 1))
      by (apply (Z.div_unique _ 2 _ 1); lia).
    rewrite inject_Z_plus, inject_Z_mult. change (inject_Z 2) with 2%Q.
    change (inject_Z 1) with 1%Q.
    set (x := inject_Z (Z.of_nat (k - 1))). field.
Qed.

Lemma median_nonempty l : l <> [] -> is_Some (median l).
Proof.
  intros Hl.
  destruct (quantile_bounds (1 # 2) l) as (v & _ & _ & Hq & _); [lra..|done|].
  pose proof (quantile_half_median l) as H. rewrite Hq in H.
  by destruct (median l).
Qed.

Lemma sort_values_In x l : In x (sort_values l) <-> In x l.
Proof.
  rewrite <- !list_elem_of_In. by rewrite (sort_values_perm l).
Qed.

(** X6.  The five numbers of a per-tag summary are ordered: for a tag with
    at least one value, minimum, lower quartile, median, upper quartile and
    maximum are all defined, min <= 25% <= median <= 75% <= max, and the
    minimum and the maximum are values of the data.  A tag without values
    has no number in any of the five. *)
Theorem describe_ordered (vs : list Q) :
  describe [] = mkSummary None None None None None /\
  (vs <> [] ->
   exists mn q1 md q3 mx,
     describe vs
       = mkSummary (Some md) (Some q1) (Some q3) (Some mn) (Some mx) /\
     (mn <= q1)%Q /\ (q1 <= md)%Q /\ (md <= q3)%Q /\ (q3 <= mx)%Q /\
     In mn vs /\ In mx vs).
Proof.
  split; [done|]. intros Hvs.
  destruct (quantile_monotone (1 # 4) (1 # 2) vs)
    as (q1 & md & Hq1 & Hmd & Hle1); [lra..|done|].
  destruct (quantile_monotone (1 # 2) (3 # 4) vs)
    as (md' & q3 & Hmd' & Hq3 & Hle2); [lra..|done|].
  destruct (quantile_bounds (1 # 4) vs)
    as (q1' & mn & mx & Hq1' & Hmn & Hmx & Hlo & _); [lra..|done|].
  destruct (quantile_bounds (3 # 4) vs)
    as (q3' & mn' & mx' & Hq3' & Hmn' & Hmx' & _ & Hhi); [lra..|done|].
  rewrite Hmd in Hmd'. injection Hmd' as <-.
  rewrite Hq1 in Hq1'. injection Hq1' as <-.
  rewrite Hq3 in Hq3'. injection Hq3' as <-.
  rewrite Hmx in Hmx'. injection Hmx' as <-.
  exists mn, q1, md, q3, mx. unfold describe.
  rewrite Hq1, Hmd, Hq3, Hmn, Hmx. split_and!; try done.
  - apply sort_values_In. unfold series_min in Hmn.
    apply list_elem_of_In. by apply head_Some_elem_of.
  - apply sort_values_In. unfold series_max in Hmx.
    apply list_elem_of_In. by apply last_Some_elem_of.
Qed.

Lemma describe_ordered_witness :
  exists mn mx, s_min (describe [3; 1; 2]%Q) = Some mn /\
                s_max (describe [3; 1; 2]%Q) = Some mx /\ (mn <= mx)%Q.
Proof.
  destruct (proj2 (describe_ordered [3; 1; 2]%Q))
    as (mn & q1 & md & q3 & mx & Hd & H1 & H2 & H3 & H4 & _); [done|].
  exists mn, mx. rewrite Hd; simpl. repeat split.
  apply Qle_trans with q1; [exact H1|].
  apply Qle_trans with md; [exact H2|].
  apply Qle_trans with q3; [exact H3 | exact H4].
Defined.

(** ** Grouping by tag *)

Lemma compare_refl s : String.compare s s = Eq.
Proof.
  pose proof (String.compare_antisym s s) as H.
  by destruct (String.compare s s).
Qed.

Lemma ltb_irrefl s : String.ltb s s = false.
Proof. unfold String.ltb. by rewrite compare_refl. Qed.

Lemma ltb_leb a b : String.ltb a b = true -> String.leb a b = true.
Proof. unfold String.ltb, String.leb. by destruct (String.compare a b). Qed.

Lemma ltb_asym a b : String.ltb a b = true -> String.ltb b a = false.
Proof.
  unfold String.ltb. rewrite (String.compare_antisym b a).
  by destruct (String.compare a b).
Qed.

Lemma ltb_trans a b c :
  String.ltb a b = true -> String.ltb b c = true -> String.ltb a c = true.
Proof.
  intros Hab Hbc.
  assert (Hac : String.le a c).
  { transitivity b; apply Is_true_true; by apply ltb_leb. }
  apply Is_true_true in Hac. unfold String.leb in Hac. unfold String.ltb.
  destruct (String.compare a c) eqn:Hc; try done.
  apply String.compare_eq_iff in Hc as ->.
  apply ltb_asym in Hab. congruence.
Qed.

Lemma ltb_trichotomy a b :
  String.eqb a b = false -> String.ltb a b = false -> String.ltb b a = true.
Proof.
  intros Hne Hlt. unfold String.ltb in *.
  rewrite (String.compare_antisym b a).
  destruct (String.compare a b) eqn:Hc; try done.
  apply String.compare_eq_iff in Hc as ->. by rewrite String.eqb_refl in Hne.
Qed.

Lemma in_insert_key x k ks : In x (insert_key k ks) <-> x = k \/ In x ks.
Proof.
  induction ks as [|k' ks IH]; simpl; [intuition|].
  destruct (String.eqb_spec k k') as [->|Hne]; [simpl; intuition|].
  destruct (String.ltb k k'); simpl; [intuition|].
  rewrite IH. intuition.
Qed.

Lemma insert_key_ascending k ks : ascending ks -> ascending (insert_key k ks).
Proof.
  unfold ascending. induction 1 as [|k' ks Hks IH Hk']; simpl.
  - repeat constructor.
  - destruct (String.eqb k k') eqn:Heq; [by constructor|].
    destruct (String.ltb k k') eqn:Hlt.
    + constructor; [by constructor|]. constructor; [done|].
      eapply Forall_impl; [exact Hk'|]. intros z Hz; simpl in *.
      by apply ltb_trans with k'.
    + constructor; [done|]. apply Forall_forall. intros z Hz.
      apply list_elem_of_In, in_insert_key in Hz as [->|Hz].
      * by apply ltb_trichotomy.
      * rewrite Forall_forall in Hk'. by apply Hk', list_elem_of_In.
Qed.

Lemma group_keys_ascending c rs : ascending (group_keys c rs).
Proof.
  induction rs as [|r rs IH]; simpl; [constructor|].
  destruct (key_of c r); [by apply insert_key_ascending | done].
Qed.

Lemma in_group_keys c rs k :
  In k (group_keys c rs) <-> exists r, In r rs /\ key_of c r = Some k.
Proof.
  induction rs as [|r rs IH]; simpl; [by split; [|intros (? & [] & _)]|].
  destruct (key_of c r) as [k'|] eqn:Hk.
  - rewrite in_insert_key, IH. split.
    + intros [->|(r' & Hr' & Hk')]; [exists r; auto | exists r'; auto].
    + intros (r' & [<-|Hr'] & Hk'); [left; congruence | right; eauto].
  - rewrite IH. split.
    + intros (r' & Hr' & Hk'). eauto.
    + intros (r' & [<-|Hr'] & Hk'); [congruence | eauto].
Qed.

Lemma cell_eqb_key_of c r k :
  cell_eqb (at_col r c) (Str k) = true <-> key_of c r = Some k.
Proof.
  unfold key_of. destruct (at_col r c); simpl; try by split.
  rewrite String.eqb_eq. split; congruence.
Qed.

Lemma ascending_NoDup ks : ascending ks -> NoDup ks.
Proof.
  induction 1 as [|k ks Hks IH Hk]; constructor; [|done].
  intros Hin. rewrite Forall_forall in Hk. specialize (Hk _ Hin).
  by rewrite ltb_irrefl in Hk.
Qed.

Lemma groupby_keys c df : List.map fst (groupby c df) = group_keys c (rows df).
Proof. unfold groupby. rewrite map_map; simpl. apply map_id. Qed.

Lemma filter_sublist {A : Type} (f : A -> bool) (l : list A) :
  List.filter f l `sublist_of` l.
Proof.
  induction l as [|x l IH]; simpl; [done|].
  destruct (f x); [by apply sublist_skip | by apply sublist_cons].
Qed.

Lemma groupby_group_rows c df k rs :
  In (k, rs) (groupby c df) ->
  rs <> [] /\ rs `sublist_of` rows df /\
  forall r, In r rs <-> In r (rows df) /\ key_of c r = Some k.
Proof.
  intros Hin. unfold groupby in Hin.
  apply in_map_iff in Hin as (k' & [= <- <-] & Hk).
  assert (Hmem : forall r,
    In r (List.filter (fun r => cell_eqb (at_col r c) (Str k')) (rows df)) <->
    In r (rows df) /\ key_of c r = Some k').
  { intros r. by rewrite filter_In, cell_eqb_key_of. }
  split_and!; [|apply filter_sublist|done].
  apply in_group_keys in Hk as (r & Hr & Hkr).
  intros Hnil. assert (Hr' := proj2 (Hmem r) (conj Hr Hkr)).
  by rewrite Hnil in Hr'.
Qed.

(** X8.  Grouping by a column yields one group per distinct text value of
    the column, in strictly ascending order of the value (so no value comes
    twice); the group of a value holds exactly the rows with that value, in
    table order, and is never empty. *)
Theorem groupby_groups (c : string) (df : DataFrame) :
  ascending (List.map fst (groupby c df)) /\
  NoDup (List.map fst (groupby c df)) /\
  (forall k, In k (List.map fst (groupby c df)) <->
             exists r, In r (rows df) /\ key_of c r = Some k) /\
  (forall k rs, In (k, rs) (groupby c df) ->
     rs <> [] /\ rs `sublist_of` rows df /\
     forall r, In r rs <-> In r (rows df) /\ key_of c r = Some k).
Proof.
  rewrite groupby_keys. split_and!.
  - apply group_keys_ascending.
  - apply ascending_NoDup, group_keys_ascending.
  - intros k. apply in_group_keys.
  - apply groupby_group_rows.
Qed.

Lemma all_defined (l : list (option Q)) :
  (forall v, In v l -> is_Some v) -> exists ms, l = List.map Some ms.
Proof.
  induction l as [|v l IH]; intros H; [by exists []|].
  destruct (H v) as [x ->]; [by left|].
  destruct IH as [ms ->]; [intros w Hw; apply H; by right|].
  by exists (x :: ms).
Qed.

Lemma tag_medians_in_defined (class_data : DataFrame) (metric : string) :
  existsb is_text (column metric (dropna metric class_data)) = false ->
  forall tag v,
    In (tag, v) (tag_medians (dropna metric class_data) metric) -> is_Some v.
Proof.
  intros Htext tag v Hin. unfold tag_medians in Hin.
  apply in_map_iff in Hin as ([k rs] & [= <- <-] & Hg); simpl.
  apply groupby_group_rows in Hg as (Hne & _ & Hmem).
  destruct rs as [|r rs]; [done|].
  assert (Hr : In r (rows (dropna metric class_data))).
  { apply Hmem. by left. }
  apply median_nonempty.
  assert (Hnum : exists x, at_col r metric = Num x).
  { unfold dropna in Hr; simpl in Hr. apply filter_In in Hr as Hr'.
    destruct Hr' as [_ Hna].
    assert (Htxt : is_text (at_col r metric) = false).
    { apply not_true_iff_false. intros Ht.
      apply not_true_iff_false in Htext. apply Htext, existsb_exists.
      exists (at_col r metric). split; [|done].
      unfold column. apply in_map_iff. by exists r. }
    destruct (at_col r metric); simpl in *; try done. by eexists. }
  destruct Hnum as [x Hx]. unfold values; simpl. by rewrite Hx.
Qed.

(** X9.  The per-tag medians are never NaN: once the rows with a missing
    value are dropped, and provided the metric column holds no text, every
    tag that remains has at least one value, so every median the trend and
    the assessments receive is a number. *)
Theorem tag_medians_defined (class_data : DataFrame) (metric : string) :
  existsb is_text (column metric (dropna metric class_data)) = false ->
  (forall tag v,
     In (tag, v) (tag_medians (dropna metric class_data) metric) ->
     is_Some v) /\
  exists ms,
    List.map snd (tag_medians (dropna metric class_data) metric) =
    List.map Some ms.
Proof.
  intros Htext.
  split; [by apply tag_medians_in_defined|]. apply all_defined.
  intros v Hv. apply in_map_iff in Hv as ([tag v'] & <- & Hin).
  by apply (tag_medians_in_defined class_data metric Htext tag).
Qed.

Lemma tag_medians_defined_witness :
  exists ms,
    List.map snd (tag_medians (dropna "SumCyclomatic" sample_class_data)
                              "SumCyclomatic") = List.map Some ms.
Proof.
  apply (tag_medians_defined sample_class_data "SumCyclomatic").
  vm_compute. reflexivity.
Defined.

Lemma ascending_sublist ks us :
  ascending ks -> ascending us -> (forall k, In k ks -> In k us) ->
  ks `sublist_of` us.
Proof.
  unfold ascending. intros Hks Hus; revert ks Hks.
  induction Hus as [|u us Hus IH Hu]; intros ks Hks Hin.
  - destruct ks as [|k ks]; [done|]. destruct (Hin k); by left.
  - destruct ks as [|k ks]; [apply sublist_nil_l|].
    inversion Hks as [|? ? Hks' Hk]; subst.
    rewrite Forall_forall in Hk, Hu.
    destruct (Hin k) as [->|Hkin]; [by left|..].
    + apply sublist_skip, IH; [done|]. intros x Hx.
      destruct (Hin x) as [->|]; [by right| |done].
      specialize (Hk x (proj2 (list_elem_of_In _ _) Hx)).
      by rewrite ltb_irrefl in Hk.
    + apply sublist_cons, IH; [done|]. intros x [<-|Hx]; [done|].
      destruct (Hin x) as [->|]; [by right| |done].
      specialize (Hk x (proj2 (list_elem_of_In _ _) Hx)).
      specialize (Hu k (proj2 (list_elem_of_In _ _) Hkin)).
      apply ltb_asym in Hu. congruence.
Qed.

Lemma tagged_key tag d r : In r (tagged tag d) -> key_of "Tag" r = Some tag.
Proof.
  intros (i & Hi)%list_elem_of_In%list_elem_of_lookup.
  destruct (at_col_tagged _ _ _ _ Hi) as (Ht & _).
  unfold key_of. by rewrite Ht.
Qed.

(** X10.  The medians of a metric come in release order.  For the data the
    loader builds, the tags of the per-tag medians (of any metric) are a
    subsequence of r5.11.4, r5.12.0, r5.12.1: at most one median per
    release, oldest release first, releases without class rows for the
    metric left out. *)
Theorem medians_follow_releases read_csv d1 d2 d3 :
  read_csv "r5.11.4-filtered.csv" = Some d1 ->
  read_csv "r5.12.0-filtered.csv" = Some d2 ->
  read_csv "r5.12.1-filtered.csv" = Some d3 ->
  exists ad,
    all_data read_csv = Some ad /\
    forall metric,
      List.map fst (tag_medians (dropna metric (class_data ad)) metric)
        `sublist_of` release_tags.
Proof.
  intros H1 H2 H3.
  destruct (combined_spec _ _ _ _ H1 H2 H3) as (c & Hc & Hrows & _).
  exists (drop_duplicates c). split; [unfold all_data; by rewrite Hc|].
  intros metric. unfold tag_medians. rewrite map_map; simpl.
  change (List.map (fun x => x.1) ?l) with (List.map fst l).
  apply ascending_sublist.
  - rewrite groupby_keys. apply group_keys_ascending.
  - unfold ascending. repeat constructor.
  - intros k Hk. rewrite groupby_keys in Hk.
    apply in_group_keys in Hk as (r & Hr & Hkr).
    assert (Hrc : In r (rows c)).
    { unfold dropna, class_data, select_isin, drop_duplicates in Hr;
        simpl in Hr.
      apply filter_In in Hr as [Hr _]. apply filter_In in Hr as [Hr _].
      apply list_elem_of_In in Hr. apply list_elem_of_In.
      eapply elem_of_sublist; [done | apply dedup_from_sublist]. }
    rewrite Hrows in Hrc.
    apply in_app_or in Hrc as [Hrc|Hrc];
      [|apply in_app_or in Hrc as [Hrc|Hrc]];
      apply tagged_key in Hrc; rewrite Hkr in Hrc; injection Hrc as ->;
      simpl; auto.
Qed.

Lemma medians_follow_releases_witness :
  exists ad, all_data sample_disk = Some ad /\
    List.map fst (tag_medians (dropna "SumCyclomatic" (class_data ad))
                              "SumCyclomatic") `sublist_of` release_tags.
Proof.
  destruct (medians_follow_releases sample_disk _ _ _ eq_refl eq_refl eq_refl)
    as (ad & Had & Hsub).
  exists ad. split; [exact Had | exact (Hsub "SumCyclomatic")].
Defined.

(** ** Short sequences and the inheritance-depth table *)

Lemma trend_of_short_sequence (ms : list Q) :
  (length ms <= 1)%nat -> trend (List.map Some ms) = "increasing".
Proof. destruct ms as [|a [|b ms]]; simpl; [done | done | lia]. Qed.

Lemma NoDup_all_same {A : Type} (x : A) (l : list A) :
  NoDup l -> (forall y, In y l -> y = x) -> (length l <= 1)%nat.
Proof.
  intros Hnd Hall. destruct l as [|a [|b l]]; simpl; [lia..|].
  exfalso. apply NoDup_cons in Hnd as [Ha _]. apply Ha.
  rewrite (Hall a), (Hall b); [by left | right; by left | by left].
Qed.

(** X11.  A metric whose values all belong to one release has nothing to
    compare, and its trend is printed as "increasing": if the metric column
    is numeric and holds no text, some row has a value for the metric, and
    every row that has one carries the same tag, then that tag has the only
    median and the report prints "Trend: increasing". *)
Theorem single_release_trend (class_data : DataFrame) (metric tag : string) :
  has_column metric (object_columns class_data) = false ->
  existsb is_text (column metric (dropna metric class_data)) = false ->
  rows (dropna metric class_data) <> [] ->
  (forall r, In r (rows (dropna metric class_data)) ->
             key_of "Tag" r = Some tag) ->
  List.map fst (tag_medians (dropna metric class_data) metric) = [tag] /\
  trend (List.map snd (tag_medians (dropna metric class_data) metric))
    = "increasing" /\
  In (Print "Trend: increasing") (report class_data metric).1.
Proof.
  intros Hobj Htext Hrows Htag.
  assert (Hkeys : List.map fst (tag_medians (dropna metric class_data) metric)
                  = group_keys "Tag" (rows (dropna metric class_data))).
  { unfold tag_medians. rewrite map_map; simpl.
    change (List.map (fun x => x.1) ?l) with (List.map fst l).
    apply groupby_keys. }
  assert (Hone : group_keys "Tag" (rows (dropna metric class_data)) = [tag]).
  { pose proof (group_keys_ascending "Tag" (rows (dropna metric class_data)))
      as Hnd%ascending_NoDup.
    assert (Hall : forall k,
      In k (group_keys "Tag" (rows (dropna metric class_data))) -> k = tag).
    { intros k (r & Hr & Hk)%in_group_keys.
      rewrite (Htag r Hr) in Hk. by injection Hk as ->. }
    assert (Hin : In tag (group_keys "Tag" (rows (dropna metric class_data)))).
    { destruct (rows (dropna metric class_data)) as [|r rs] eqn:Hrs; [done|].
      apply in_group_keys. exists r. split; [by left|].
      apply Htag. rewrite ?Hrs. by left. }
    pose proof (NoDup_all_same tag _ Hnd Hall) as Hlen.
    destruct (group_keys "Tag" (rows (dropna metric class_data)))
      as [|a [|b l]]; [done| |simpl in Hlen; lia].
    by rewrite (Hall a (or_introl eq_refl)). }
  assert (Hlen : (length (tag_medians (dropna metric class_data) metric)
                  <= 1)%nat).
  { rewrite <- (length_map fst), Hkeys, Hone. simpl. lia. }
  assert (Htrend :
    trend (List.map snd (tag_medians (dropna metric class_data) metric))
      = "increasing").
  { destruct (all_defined
                (List.map snd (tag_medians (dropna metric class_data) metric)))
      as [ms Hms].
    - intros v Hv. apply in_map_iff in Hv as ([t v'] & <- & Hin).
      by apply (tag_medians_in_defined class_data metric Htext t).
    - rewrite Hms. apply trend_of_short_sequence.
      rewrite <- (length_map Some), <- Hms, length_map. exact Hlen. }
  split; [by rewrite Hkeys|]. split; [done|].
  unfold report.
  change (object_columns (dropna metric class_data))
    with (object_columns class_data).
  rewrite Hobj. cbn [fst]. rewrite Htrend.
  right. right. by left.
Qed.

Lemma single_release_trend_witness :
  In (Print "Trend: increasing")
     (report (metric_table [("A", 5); ("A", 1)]%Q) "M").1.
Proof.
  apply (single_release_trend (metric_table [("A", 5); ("A", 1)]%Q) "M" "A").
  - vm_compute. reflexivity.
  - vm_compute. reflexivity.
  - vm_compute. discriminate.
  - intros r Hr. vm_compute in Hr. destruct Hr as [<-|[<-|[]]]; reflexivity.
Defined.

Lemma lt_number v k : Py.lt (Some v) (Some k) = true <-> (v < k)%Q.
Proof. apply Qlt_bool_iff. Qed.

Lemma lt_number_false v k : Py.lt (Some v) (Some k) = false <-> (k <= v)%Q.
Proof.
  rewrite <- not_true_iff_false, lt_number.
  split; [apply Qnot_lt_le | apply Qle_not_lt].
Qed.

(** X12.  For MaxInheritanceTree a median is labelled Too high exactly when
    it is above 6, Too low exactly when it is below 2, and Optimal exactly
    when it lies between 2 and 6, both ends included.  These labels are the
    ones printed for that metric, one per tag after a heading; a metric other
    than the three with a guideline table prints no assessment. *)
Theorem dit_assessment_bands :
  (forall v : Q,
     (dit_assessment (Some v) = "Too high (>6)" <-> (6 < v)%Q) /\
     (dit_assessment (Some v) = "Too low (<2)" <-> (v < 2)%Q) /\
     (dit_assessment (Some v) = "Optimal (2-6)" <->
        (2 <= v)%Q /\ (v <= 6)%Q)) /\
  (forall medians,
     assessment_lines "MaxInheritanceTree" medians =
       Print (Py.nl +:+ "DIT Assessment:") ::
       List.map (fun tv => PrintAssessment tv.1 tv.2 "" (dit_assessment tv.2))
                medians) /\
  (forall metric medians,
     metric <> "MaxInheritanceTree" ->
     metric <> "PercentLackOfCohesion" ->
     metric <> "SumCyclomatic" ->
     assessment_lines metric medians = []).
Proof.
  split_and!.
  - intros v. unfold dit_assessment.
    destruct (Py.gt (Some v) (Some 6%Q)) eqn:Hgt;
      [apply gt_number in Hgt | apply gt_number_false in Hgt];
      (destruct (Py.lt (Some v) (Some 2%Q)) eqn:Hlt;
         [apply lt_number in Hlt | apply lt_number_false in Hlt]);
      repeat split; intros; try done; try lra.
  - done.
  - intros metric medians H1 H2 H3. unfold assessment_lines.
    apply String.eqb_neq in H1, H2, H3. by rewrite H1, H2, H3.
Qed.

Lemma dit_assessment_bands_witness :
  assessment_lines "CountLineCode" [("r5.11.4", Some 3%Q)] = [].
Proof.
  apply (proj2 (proj2 dit_assessment_bands)); discriminate.
Defined.

(** ** Cleaning *)

Lemma filter_filter_comm {A : Type} (f g : A -> bool) (l : list A) :
  List.filter f (List.filter g l) = List.filter g (List.filter f l).
Proof.
  induction l as [|x l IH]; simpl; [done|].
  destruct (f x) eqn:Hf, (g x) eqn:Hg; simpl; rewrite ?Hf, ?Hg, ?IH; done.
Qed.

Lemma filter_idem {A : Type} (f : A -> bool) (l : list A) :
  List.filter f (List.filter f l) = List.filter f l.
Proof.
  induction l as [|x l IH]; simpl; [done|].
  destruct (f x) eqn:Hf; simpl; rewrite ?Hf, ?IH; done.
Qed.

(** X13.  Cleaning is local to a metric.  Dropping the rows without a value
    for a metric keeps the header and exactly the rows that have one, in
    table order, whatever their other cells hold; doing it twice changes
    nothing more, and cleaning for two metrics gives the same table in
    either order. *)
Theorem dropna_keeps_rows_with_value (df : DataFrame) (m m' : string) :
  columns (dropna m df) = columns df /\
  rows (dropna m df) `sublist_of` rows df /\
  (forall r, In r (rows (dropna m df)) <->
             In r (rows df) /\ at_col r m <> NaN) /\
  dropna m (dropna m df) = dropna m df /\
  dropna m (dropna m' df) = dropna m' (dropna m df).
Proof.
  unfold dropna; simpl. split_and!; [done|apply filter_sublist|..].
  - intros r. rewrite filter_In.
    destruct (at_col r m); simpl; intuition congruence.
  - f_equal. apply filter_idem.
  - f_equal. apply filter_filter_comm.
Qed.

(** ** The guarded chart block *)

Section Blocks.

Variable backend : string -> plot_call -> option string.

(** The calls are made in order up to the first statement that raises. *)
Lemma run_block_prefix metric p made res :
  run_block backend metric p = (made, res) ->
  exists rest,
    p = List.map Call made ++ rest /\
    Forall (fun c => backend metric c = None) made /\
    match res with
    | None => rest = []
    | Some e =>
        match rest with
        | Raise msg :: _ => e = msg
        | Call c :: _ => backend metric c = Some e
        | [] => False
        end
    end.
Proof.
  revert made res; induction p as [|[c|msg] p IH]; intros made res Hrun;
    simpl in Hrun.
  - injection Hrun as <- <-. by exists [].
  - destruct (backend metric c) as [e|] eqn:Hc.
    + injection Hrun as <- <-. exists (Call c :: p). by repeat split.
    + destruct (run_block backend metric p) as [made' res'] eqn:Hp.
      simpl in Hrun. injection Hrun as <- <-.
      destruct (IH _ _ eq_refl) as (rest & -> & Hall & Hres).
      exists rest. repeat split; [by constructor | done].
  - injection Hrun as <- <-. exists (Raise msg :: p). by repeat split.
Qed.

Lemma in_map_Call x made : In (Call x) (List.map Call made) <-> In x made.
Proof.
  rewrite in_map_iff. split; [|by exists x].
  by intros (y & [= ->] & Hy).
Qed.

Lemma run_block_failure_before_last metric front c made e :
  run_block backend metric (front ++ [Call c]) = (made, Some e) ->
  forall x, In x made -> In (Call x) front.
Proof.
  intros Hrun x Hx.
  apply run_block_prefix in Hrun as (rest & Heq & _ & Hres).
  destruct rest as [|i rest]; [done|].
  destruct (@exists_last _ (i :: rest)) as (rest' & j & Hrest); [done|].
  rewrite Hrest, app_assoc in Heq.
  apply app_inj_tail in Heq as [-> _].
  apply in_or_app. left. by apply in_map_Call.
Qed.

Lemma run_block_success metric p made :
  run_block backend metric p = (made, None) -> p = List.map Call made.
Proof.
  intros Hrun. apply run_block_prefix in Hrun as (rest & Heq & _ & ->).
  by rewrite app_nil_r in Heq.
Qed.

Lemma axis_calls_no_close metric vs : ~ In (Call Close) (axis_calls metric vs).
Proof.
  unfold axis_calls.
  destruct (has_column metric ["CountClassDerived"; "MaxInheritanceTree"]);
    [destruct (Py.int (series_max vs))|]; cbn [In].
  - intros [H|[H|[]]]; discriminate H.
  - intros [H|[]]; discriminate H.
  - intros [H|[]]; discriminate H.
Qed.

Lemma chart_block_front metric clean_data :
  exists front,
    chart_block metric clean_data = front ++ [Call Close] /\
    ~ In (Call Close) front /\
    head front = Some (Call (Boxplot (boxplot_call metric clean_data))) /\
    In (Call (SaveFig ("outputs/" +:+ metric +:+ "_boxplot.png")
                      (Some 300%Z) "tight")) front.
Proof.
  unfold chart_block.
  match goal with
  | |- context [?pre ++ axis_calls ?m ?v ++ [?g; ?t; ?s; Call Close]] =>
      exists (pre ++ axis_calls m v ++ [g; t; s])
  end.
  split; [rewrite <- !app_assoc; reflexivity|].
  split; [|split; [reflexivity|]].
  - intros [H|H]%in_app_or.
    + cbn [In] in H. destruct H as [H|[H|[H|[H|[]]]]]; discriminate H.
    + apply in_app_or in H as [H|H]; [by apply axis_calls_no_close in H|].
      cbn [In] in H. destruct H as [H|[H|[H|[]]]]; discriminate H.
  - apply in_or_app. right. apply in_or_app. right.
    cbn [In]. right. right. left. reflexivity.
Qed.

Lemma chart_block_basic_front metric clean_data :
  exists front,
    chart_block_basic metric clean_data = front ++ [Call Close] /\
    ~ In (Call Close) front /\
    head front =
      Some (Call (Boxplot (mkBoxplot "Tag" metric clean_data true
                                     None None None))) /\
    In (Call (SaveFig ("outputs/" +:+ metric +:+ "_boxplot.png") None "tight"))
       front.
Proof.
  unfold chart_block_basic.
  match goal with
  | |- context [[?b; ?t; ?s; Call Close]] => exists [b; t; s]
  end.
  split; [reflexivity|]. split; [|split; [reflexivity|]].
  - cbn [In]. intros [H|[H|[H|[]]]]; discriminate H.
  - cbn [In]. right. right. left. reflexivity.
Qed.

Lemma block_outcome metric front first save made res :
  ~ In (Call Close) front ->
  head front = Some (Call first) ->
  In (Call save) front ->
  run_block backend metric (front ++ [Call Close]) = (made, res) ->
  match res with
  | Some _ => ~ In Close made
  | None => head made = Some first /\ In save made /\ last made = Some Close
  end.
Proof.
  intros Hclose Hfirst Hsave Hrun. destruct res as [e|].
  - intros Hin. apply Hclose.
    by apply (run_block_failure_before_last _ _ _ _ _ Hrun).
  - apply run_block_success in Hrun. split_and!.
    + destruct front as [|i front]; [done|]. injection Hfirst as ->.
      destruct made as [|c made]; [done|]. by injection Hrun as <- _.
    + apply in_map_Call. rewrite <- Hrun. apply in_or_app. by left.
    + assert (Hlast : last (front ++ [Call Close]) = Some (Call Close))
        by apply last_snoc.
      rewrite Hrun in Hlast.
      change (List.map Call made) with (Call <$> made) in Hlast.
      rewrite fmap_last in Hlast.
      destruct (last made) as [c|]; [|done]. by injection Hlast as ->.
Qed.

(** X14.  What a chart block leaves behind.  If some statement of the block
    raises, [plt.close()] is not reached: the figure stays open.  If none
    raises, every call of the block was made: the notched box plot first,
    the file [outputs/<metric>_boxplot.png] saved, the figure closed last. *)
Theorem chart_block_outcome metric clean_data made res :
  run_block backend metric (chart_block metric clean_data) = (made, res) ->
  match res with
  | Some _ => ~ In Close made
  | None =>
      head made = Some (Boxplot (boxplot_call metric clean_data)) /\
      In (SaveFig ("outputs/" +:+ metric +:+ "_boxplot.png") (Some 300%Z)
                  "tight") made /\
      last made = Some Close
  end.
Proof.
  destruct (chart_block_front metric clean_data)
    as (front & -> & Hclose & Hfirst & Hsave).
  by apply block_outcome.
Qed.

(** X15.  The chart block of the older copy of the script behaves alike: if
    a statement raises, [plt.close()] is not reached; if none raises, the
    notched box plot was drawn first, the file
    [outputs/<metric>_boxplot.png] was saved and the figure was closed
    last. *)
Theorem chart_block_basic_outcome metric clean_data made res :
  run_block backend metric (chart_block_basic metric clean_data)
    = (made, res) ->
  match res with
  | Some _ => ~ In Close made
  | None =>
      head made = Some (Boxplot (mkBoxplot "Tag" metric clean_data true
                                           None None None)) /\
      In (SaveFig ("outputs/" +:+ metric +:+ "_boxplot.png") None "tight")
         made /\
      last made = Some Close
  end.
Proof.
  destruct (chart_block_basic_front metric clean_data)
    as (front & -> & Hclose & Hfirst & Hsave).
  by apply block_outcome.
Qed.

Lemma run_block_raise metric cs msg post made res :
  run_block backend metric (List.map Call cs ++ Raise msg :: post)
    = (made, res) ->
  res <> None /\
  (forall x, In x made -> In x cs) /\
  ((forall c, backend metric c = None) -> res = Some msg).
Proof.
  revert made res; induction cs as [|c cs IH]; intros made res Hrun;
    cbn [List.map app run_block] in Hrun.
  - by injection Hrun as <- <-.
  - destruct (backend metric c) as [e|] eqn:Hc.
    + injection Hrun as <- <-. split_and!; [done|done|].
      intros Hq. by rewrite Hq in Hc.
    + destruct (run_block backend metric
                  (List.map Call cs ++ Raise msg :: post))
        as [made' res'] eqn:Hp.
      cbn [fst snd] in Hrun. injection Hrun as <- <-.
      destruct (IH _ _ eq_refl) as (Hne & Hin & Hq).
      split_and!; [done| |done].
      intros x [<-|Hx]; [by left | right; by apply Hin].
Qed.

(** X16.  A discrete metric without a single value has no chart.  For
    CountClassDerived and MaxInheritanceTree the axis is built from
    [int(max)]; on an empty column the maximum is NaN and the conversion
    raises inside the guarded block, so whatever the plotting libraries do,
    the block ends with an exception and the file is not saved; if the
    plotting calls return, the exception is the conversion error. *)
Theorem discrete_metric_without_values metric clean_data made res :
  metric = "CountClassDerived" \/ metric = "MaxInheritanceTree" ->
  values metric (rows clean_data) = [] ->
  run_block backend metric (chart_block metric clean_data) = (made, res) ->
  res <> None /\
  (forall path dpi bbox, ~ In (SaveFig path dpi bbox) made) /\
  ((forall c, backend metric c = None) ->
   res = Some "cannot convert float NaN to integer").
Proof.
  intros Hm Hvs Hrun.
  assert (Hd : has_column metric ["CountClassDerived"; "MaxInheritanceTree"]
               = true) by (by destruct Hm as [->| ->]).
  unfold chart_block, axis_calls in Hrun. rewrite Hvs, Hd in Hrun.
  change (Py.int (series_max [])) with (@None Z) in Hrun.
  cbv iota in Hrun.
  match type of Hrun with
  | context
      [[Call ?c1; Call ?c2; Call ?c3; Call ?c4] ++ [Raise ?msg] ++ ?post] =>
      change ([Call c1; Call c2; Call c3; Call c4] ++ [Raise msg] ++ post)
        with (List.map Call [c1; c2; c3; c4] ++ Raise msg :: post) in Hrun;
      apply run_block_raise in Hrun as (Hne & Hin & Hq)
  end.
  split_and!; [done| |done].
  intros path dpi bbox Hs. apply Hin in Hs. cbn [In] in Hs.
  destruct Hs as [H|[H|[H|[H|[]]]]]; discriminate H.
Qed.

End Blocks.

Lemma chart_block_outcome_witness :
  ~ In Close
      (run_block (failing_backend "SumCyclomatic") "SumCyclomatic"
         (chart_block "SumCyclomatic"
            (dropna "SumCyclomatic" sample_class_data))).1.
Proof.
  apply (chart_block_outcome (failing_backend "SumCyclomatic") "SumCyclomatic"
           (dropna "SumCyclomatic" sample_class_data) _ (Some "disk full")).
  vm_compute. reflexivity.
Defined.

Lemma chart_block_basic_outcome_witness :
  last (run_block quiet_backend "SumCyclomatic"
          (chart_block_basic "SumCyclomatic"
             (dropna "SumCyclomatic" sample_class_data))).1 = Some Close.
Proof.
  apply (chart_block_basic_outcome quiet_backend "SumCyclomatic"
           (dropna "SumCyclomatic" sample_class_data) _ None).
  vm_compute. reflexivity.
Defined.

Lemma discrete_metric_without_values_witness :
  (run_block quiet_backend "MaxInheritanceTree"
     (chart_block "MaxInheritanceTree" empty_frame)).2 <> None.
Proof.
  eapply (discrete_metric_without_values quiet_backend "MaxInheritanceTree"
            empty_frame).
  - right. reflexivity.
  - reflexivity.
  - vm_compute. reflexivity.
Defined.

(** ** When the loop stops *)

Section Aborts.

Variable backend : string -> plot_call -> option string.
Variable figsize : Z * Z.
Variable block : string -> DataFrame -> list instr.
Variable class_data : DataFrame.





End Aborts.


(** ** The y axis *)

Lemma in_range0 n k : In k (Py.range0 n) <-> (0 <= k < n)%Z.
Proof.
  unfold Py.range0. rewrite in_map_iff. split.
  - intros (i & <- & Hi). apply in_seq in Hi. lia.
  - intros Hk. exists (Z.to_nat k). split; [lia|]. apply in_seq. lia.
Qed.

(** X18.  For every metric other than CountClassDerived and
    MaxInheritanceTree with at least one value, the block sets the y axis
    once, to a range with both ends defined that lies inside the data: data
    minimum <= bottom <= top <= data maximum.  (The outlier thresholds can
    cut the axis short of the extremes; they never extend it beyond them.) *)
Theorem continuous_axis_within_data (metric : string) (vs : list Q) :
  has_column metric ["CountClassDerived"; "MaxInheritanceTree"] = false ->
  vs <> [] ->
  exists bottom top mn mx,
    axis_calls metric vs = [Call (YLim (Some bottom) (Some top))] /\
    series_min vs = Some mn /\ series_max vs = Some mx /\
    (mn <= bottom)%Q /\ (bottom <= top)%Q /\ (top <= mx)%Q.
Proof.
  intros Hm Hvs. unfold axis_calls. rewrite Hm.
  destruct (quantile_monotone (1 # 4) (3 # 4) vs)
    as (q1 & q3 & Hq1 & Hq3 & Hle); [lra..|done|].
  destruct (quantile_bounds (1 # 4) vs)
    as (q1' & mn & mx & Hq1' & Hmn & Hmx & Hlo & _); [lra..|done|].
  destruct (quantile_bounds (3 # 4) vs)
    as (q3' & mn' & mx' & Hq3' & Hmn' & Hmx' & _ & Hhi); [lra..|done|].
  rewrite Hq1 in Hq1'. injection Hq1' as <-.
  rewrite Hq3 in Hq3'. injection Hq3' as <-.
  rewrite Hmx in Hmx'. injection Hmx' as <-.
  rewrite Hq1, Hq3, Hmn, Hmx.
  cbn [Py.sub Py.add Py.mul mbind option_bind].
  unfold Py.max, Py.min, Py.gt, Py.lt.
  repeat match goal with
  | |- context [Qlt_bool ?a ?b] =>
      let H := fresh "Hcmp" in
      destruct (Qlt_bool a b) eqn:H;
      [apply Qlt_bool_iff in H
      |apply not_true_iff_false in H; rewrite Qlt_bool_iff in H;
       apply Qnot_lt_le in H]
  end;
  eexists _, _, mn, mx; (split; [reflexivity|]);
  split_and!; try done; lra.
Qed.

Lemma continuous_axis_within_data_witness :
  exists bottom top,
    axis_calls "SumCyclomatic" [1; 2; 3; 40]%Q
      = [Call (YLim (Some bottom) (Some top))] /\ (bottom <= top)%Q.
Proof.
  destruct (continuous_axis_within_data "SumCyclomatic" [1; 2; 3; 40]%Q)
    as (bottom & top & mn & mx & Hax & _ & _ & _ & Hle & _).
  - reflexivity.
  - discriminate.
  - exists bottom, top. split; [exact Hax | exact Hle].
Defined.

(** X19.  For CountClassDerived and MaxInheritanceTree with at least one
    value the axis has whole-number ticks: with [t] the maximum truncated
    towards zero, the ticks are the whole numbers from 0 to [t] and the axis
    runs from -0.5 to [t] + 0.5.  When the maximum is not negative, [t] is
    its integer part, so a whole-number maximum is the top tick. *)
Theorem discrete_axis_ticks (metric : string) (vs : list Q) :
  has_column metric ["CountClassDerived"; "MaxInheritanceTree"] = true ->
  vs <> [] ->
  exists t mx,
    series_max vs = Some mx /\
    axis_calls metric vs =
      [ Call (YTicks (Py.range0 (t + 1)));
        Call (YLim (Some (-(1 # 2))%Q) (Some (inject_Z t + (1 # 2))%Q)) ] /\
    (forall k, In k (Py.range0 (t + 1)) <-> (0 <= k <= t)%Z) /\
    ((0 <= mx)%Q ->
     (inject_Z t <= mx)%Q /\ (mx < inject_Z t + 1)%Q /\
     forall n, (mx == inject_Z n)%Q -> t = n).
Proof.
  intros Hm Hvs. unfold axis_calls. rewrite Hm.
  destruct (quantile_bounds 0 vs) as (_ & _ & mx & _ & _ & Hmx & _);
    [lra..|done|].
  rewrite Hmx. cbn [Py.int mbind option_bind].
  exists (Z.quot (Qnum mx) (Z.pos (Qden mx))), mx.
  split; [done|]. split; [done|]. split.
  - intros k. rewrite in_range0. lia.
  - intros Hpos.
    assert (Hnum : (0 <= Qnum mx)%Z).
    { unfold Qle in Hpos; simpl in Hpos. lia. }
    rewrite Z.quot_div_nonneg by lia.
    replace (Qnum mx / Z.pos (Qden mx))%Z with (Qfloor mx)
      by (by destruct mx).
    split; [apply Qfloor_le|]. split.
    + pose proof (Qlt_floor mx) as Hlt. rewrite inject_Z_plus in Hlt.
      exact Hlt.
    + intros n Hn. rewrite (Qfloor_comp _ _ Hn). apply Qfloor_Z.
Qed.

Lemma discrete_axis_ticks_witness :
  exists t,
    axis_calls "MaxInheritanceTree" [1; 3; 2]%Q =
      [ Call (YTicks (Py.range0 (t + 1)));
        Call (YLim (Some (-(1 # 2))%Q) (Some (inject_Z t + (1 # 2))%Q)) ].
Proof.
  destruct (discrete_axis_ticks "MaxInheritanceTree" [1; 3; 2]%Q)
    as (t & mx & _ & Hax & _).
  - reflexivity.
  - discriminate.
  - exists t. exact Hax.
Defined.

(** ** Loading fails only on an unreadable file *)

(** X20.  The only way the loader fails is a file it cannot read: if there
    is no combined table, one of the three files of the [files] dictionary
    is missing or does not parse.  (Labelling the rows and stacking the
    tables never fail.) *)
Theorem loading_fails_only_on_unreadable_file read_csv :
  all_data read_csv = None ->
  exists tag file, In (tag, file) files /\ read_csv file = None.
Proof.
  intros Hnone.
  destruct (read_csv "r5.11.4-filtered.csv") as [d1|] eqn:H1.
  2:{ exists "r5.11.4", "r5.11.4-filtered.csv". split; [by left | done]. }
  destruct (read_csv "r5.12.0-filtered.csv") as [d2|] eqn:H2.
  2:{ exists "r5.12.0", "r5.12.0-filtered.csv".
      split; [right; by left | done]. }
  destruct (read_csv "r5.12.1-filtered.csv") as [d3|] eqn:H3.
  2:{ exists "r5.12.1", "r5.12.1-filtered.csv".
      split; [right; right; by left | done]. }
  destruct (combined_spec _ _ _ _ H1 H2 H3) as (c & Hc & _).
  unfold all_data in Hnone. by rewrite Hc in Hnone.
Qed.

Lemma loading_fails_only_on_unreadable_file_witness :
  exists tag file, In (tag, file) files /\ broken_disk file = None.
Proof.
  apply (loading_fails_only_on_unreadable_file broken_disk).
  vm_compute. reflexivity.
Defined.

(** ** The catalogue lines *)

Lemma length_append (s t : string) :
  String.length (s +:+ t) = (String.length s + String.length t)%nat.
Proof. induction s as [|a s IH]; simpl; [done | by rewrite IH]. Qed.

Lemma length_spaces n :
  String.length (String.concat "" (repeat " " n)) = n.
Proof.
  induction n as [|n IH]; [done|].
  destruct n as [|n]; [done|].
  change (repeat " " (S (S n))) with (" " :: repeat " " (S n)).
  change (String.concat "" (" " :: repeat " " (S n)))
    with (" " +:+ ("" +:+ String.concat "" (repeat " " (S n)))).
  rewrite !length_append, IH. done.
Qed.

(** X21.  The catalogue prints each metric name left-aligned in a column
    of 20 characters: a shorter name is padded with spaces up to 20, a name
    of 20 characters or more is printed whole, never cut, so the padded name
    is as long as the longer of the two. *)
Theorem ljust_width (w : nat) (s : string) :
  String.length (Py.ljust w s) = Nat.max w (String.length s) /\
  String.prefix s (Py.ljust w s) = true /\
  ((w <= String.length s)%nat -> Py.ljust w s = s).
Proof.
  unfold Py.ljust. split_and!.
  - rewrite length_append, length_spaces. lia.
  - generalize (String.concat "" (repeat " " (w - String.length s))).
    intros t. induction s as [|a s IH]; simpl; [by destruct t|].
    destruct (ascii_dec a a); [done | congruence].
  - intros Hw. replace (w - String.length s)%nat with 0%nat by lia.
    cbn [repeat String.concat]. clear Hw.
    induction s as [|a s IH]; [done|].
    change (String a s +:+ "") with (String a (s +:+ "")). by rewrite IH.
Qed.

Lemma ljust_width_witness :
  Py.ljust 20 "PercentLackOfCohesion" = "PercentLackOfCohesion".
Proof. apply (ljust_width 20 "PercentLackOfCohesion"). simpl. lia. Defined.
